(** * mesh-dash: the chain-query client [substrate/chain_functions.py]

    A shallow embedding of the [Hypertensor] client: its dataclasses, the
    epoch arithmetic of its helper methods, the retry decoration of its query
    methods and the formatted list queries, together with the properties the
    specification states about them.

    Conventions of the embedding.
    - A Python [int] is a [Z]; [//] and [%] are [Z.div] and [Z.modulo], which
      round towards minus infinity and give the remainder the sign of the
      divisor, exactly as Python does; a zero divisor raises
      [ZeroDivisionError].
    - A Python [float] is represented by the rational number it denotes, and
      arithmetic on it is exact ([Q]): rounding to binary64, infinities and
      NaN are not part of the model.
    - What a storage query or a constant lookup answers is an object of the
      library, represented by the number it holds: [int(str(...))] reads
      that number, and arithmetic on the object itself raises [TypeError].
    - A method that may raise returns an [outcome]; a method that talks to the
      node is a function of the trace of effects performed so far. *)

From Stdlib Require Import ZArith QArith List String Bool Lia.
Import ListNotations.
Open Scope Z_scope.

(** ** Exceptions and results *)

(** The exception classes (all subclasses of [Exception]) the client names,
    raises or receives.  [RetryError] is tenacity's wrapper around the last
    failed attempt. *)
Inductive exn : Type :=
| SubstrateRequestException
| ConnectionError
| AttributeError
| WebSocketConnectionClosedException
| WebSocketProtocolException
| TypeError
| ValueError
| KeyError
| ZeroDivisionError
| RetryError (last_attempt : exn)
| OtherException (name : string).

Inductive outcome (A : Type) : Type :=
| Returns (a : A)
| Raises (e : exn).
Arguments Returns {A} a.
Arguments Raises {A} e.

Definition obind {A B} (r : outcome A) (k : A -> outcome B) : outcome B :=
  match r with
  | Returns a => k a
  | Raises e => Raises e
  end.

Notation "'let?' x ':=' r 'in' k" := (obind r (fun x => k))
  (at level 10, x name, r at level 100, k at level 200).

(** ** Configuration: [substrate/config.py] *)

(** [BLOCK_SECS], the per-block duration, is imported from a module that is
    not part of the sources at hand; it stays a parameter. *)
Class Config : Type := { BLOCK_SECS : Z }.

(** The configuration used to run the model on examples. *)
Definition config6 : Config := {| BLOCK_SECS := 6 |}.

(** ** Python arithmetic *)

(** [a // b] *)
Definition floordiv (a b : Z) : outcome Z :=
  if b =? 0 then Raises ZeroDivisionError else Returns (a / b).

(** [a % b] *)
Definition pymod (a b : Z) : outcome Z :=
  if b =? 0 then Raises ZeroDivisionError else Returns (a mod b).

(** [a / b] on two ints: the quotient as a float. *)
Definition truediv (a b : Z) : outcome Q :=
  if b =? 0 then Raises ZeroDivisionError
  else Returns (inject_Z a / inject_Z b)%Q.

(** The literal [1e18]. *)
Definition f1e18 : Q := inject_Z (10 ^ 18).

(** [int(str(v))]: a query result that is [None] prints as the text None,
    which [int] refuses. *)
Definition int_str (v : option Z) : outcome Z :=
  match v with
  | Some n => Returns n
  | None => Raises ValueError
  end.

(** *** Arithmetic on what a query method returned

    A storage query answers with an object of the library (a [ScaleType] of
    scalecodec), and the query methods of the client return that object as it
    is, or [None] after a refused request.  The object prints as the number it
    holds, which is how [int(str(...))] reads it; it defines no arithmetic.
    Such a value is an [option Z] here: [None], or the object, given by the
    number it holds. *)

(** [a * v], for an int [a] and such a value [v]: [int.__mul__] does not know
    the object and the object has no [__rmul__], so Python raises
    [TypeError]; it does so for [None] as well. *)
Definition int_times_fetched (a : Z) (v : option Z) : outcome Z :=
  match v with
  | Some held => Raises TypeError
  | None => Raises TypeError
  end.

(** [v / x], for such a value [v] and a float [x]: the object has no
    [__truediv__] and [float.__rtruediv__] does not know it. *)
Definition fetched_over_float (v : option Z) (x : Q) : outcome Q :=
  match v with
  | Some held => Raises TypeError
  | None => Raises TypeError
  end.

(** A required keyword argument of a dataclass [__init__]: [None] stands for
    an argument the call does not supply. *)
Definition required {A} (arg : option A) : outcome A :=
  match arg with
  | Some a => Returns a
  | None => Raises TypeError
  end.

(** ** The dataclasses *)

Module EpochData.

Record t : Type := mk {
  block : Z;
  epoch : Z;
  block_per_epoch : Z;
  seconds_per_epoch : Z;
  percent_complete : Q;
  blocks_elapsed : Z;
  blocks_remaining : Z;
  seconds_elapsed : Z;
  seconds_remaining : Z
}.

(** The generated [__init__]: every field is required. *)
Definition init (block epoch block_per_epoch seconds_per_epoch : option Z)
    (percent_complete : option Q)
    (blocks_elapsed blocks_remaining seconds_elapsed seconds_remaining : option Z)
    : outcome t :=
  let? block := required block in
  let? epoch := required epoch in
  let? block_per_epoch := required block_per_epoch in
  let? seconds_per_epoch := required seconds_per_epoch in
  let? percent_complete := required percent_complete in
  let? blocks_elapsed := required blocks_elapsed in
  let? blocks_remaining := required blocks_remaining in
  let? seconds_elapsed := required seconds_elapsed in
  let? seconds_remaining := required seconds_remaining in
  Returns (mk block epoch block_per_epoch seconds_per_epoch percent_complete
             blocks_elapsed blocks_remaining seconds_elapsed seconds_remaining).

(** [EpochData.zero] *)
Definition zero `{Config} (current_block epoch_length : Z) : outcome t :=
  init (Some current_block)
       (Some 0)
       (Some epoch_length)
       (Some (epoch_length * BLOCK_SECS))
       (Some 0%Q)
       (Some 0)
       (Some epoch_length)
       (Some 0)
       (Some (epoch_length * BLOCK_SECS)).

(** The same record with another [block]. *)
Definition with_block (b : Z) (d : t) : t :=
  mk b (epoch d) (block_per_epoch d) (seconds_per_epoch d) (percent_complete d)
     (blocks_elapsed d) (blocks_remaining d) (seconds_elapsed d)
     (seconds_remaining d).

End EpochData.

Module OverwatchEpochData.

Record t : Type := mk {
  block : Z;
  epoch : Z;
  overwatch_epoch : Z;
  block_per_epoch : Z;
  seconds_per_epoch : Z;
  percent_complete : Q;
  blocks_elapsed : Z;
  blocks_remaining : Z;
  seconds_elapsed : Z;
  seconds_remaining : Z;
  seconds_remaining_until_reveal : Q
}.

(** The generated [__init__]: eleven required fields, none with a default. *)
Definition init (block epoch overwatch_epoch block_per_epoch seconds_per_epoch : option Z)
    (percent_complete : option Q)
    (blocks_elapsed blocks_remaining seconds_elapsed seconds_remaining : option Z)
    (seconds_remaining_until_reveal : option Q)
    : outcome t :=
  let? block := required block in
  let? epoch := required epoch in
  let? overwatch_epoch := required overwatch_epoch in
  let? block_per_epoch := required block_per_epoch in
  let? seconds_per_epoch := required seconds_per_epoch in
  let? percent_complete := required percent_complete in
  let? blocks_elapsed := required blocks_elapsed in
  let? blocks_remaining := required blocks_remaining in
  let? seconds_elapsed := required seconds_elapsed in
  let? seconds_remaining := required seconds_remaining in
  let? seconds_remaining_until_reveal := required seconds_remaining_until_reveal in
  Returns (mk block epoch overwatch_epoch block_per_epoch seconds_per_epoch
             percent_complete blocks_elapsed blocks_remaining seconds_elapsed
             seconds_remaining seconds_remaining_until_reveal).

(** [OverwatchEpochData.zero] *)
Definition zero `{Config} (current_block epoch_length : Z) : outcome t :=
  init (Some current_block)
       (Some 0)
       (Some 0)
       (Some epoch_length)
       (Some (epoch_length * BLOCK_SECS))
       (Some 0%Q)
       (Some 0)
       (Some epoch_length)
       (Some 0)
       (Some (epoch_length * BLOCK_SECS))
       (Some 0%Q).

End OverwatchEpochData.

(** ** The epoch arithmetic of the helper methods

    Each helper first fetches its integers from the node and then computes;
    the computation of [get_epoch_data] and of [get_subnet_epoch_data] is
    given here as a function of the fetched integers, written out as the
    method writes it, and so are the stretches of the two overwatch methods
    that compute on numbers. *)

Section EpochArithmetic.
Context `{Config}.

(** [get_epoch_data], from [epoch = current_block // epoch_length] on. *)
Definition epoch_data (current_block epoch_length : Z) : outcome EpochData.t :=
  let? epoch := floordiv current_block epoch_length in
  let? blocks_elapsed := pymod current_block epoch_length in
  let? percent_complete := truediv blocks_elapsed epoch_length in
  let blocks_remaining := epoch_length - blocks_elapsed in
  let seconds_elapsed := blocks_elapsed * BLOCK_SECS in
  let seconds_remaining := blocks_remaining * BLOCK_SECS in
  EpochData.init (Some current_block)
                 (Some epoch)
                 (Some epoch_length)
                 (Some (epoch_length * BLOCK_SECS))
                 (Some percent_complete)
                 (Some blocks_elapsed)
                 (Some blocks_remaining)
                 (Some seconds_elapsed)
                 (Some seconds_remaining).

(** [get_subnet_epoch_data], from [if current_block < slot] on. *)
Definition subnet_epoch_data (current_block epoch_length slot : Z)
    : outcome EpochData.t :=
  if current_block <? slot then EpochData.zero current_block epoch_length
  else
    let blocks_since_start := current_block - slot in
    let? epoch := floordiv blocks_since_start epoch_length in
    let? blocks_elapsed := pymod blocks_since_start epoch_length in
    let? percent_complete := truediv blocks_elapsed epoch_length in
    let blocks_remaining := epoch_length - blocks_elapsed in
    let seconds_elapsed := blocks_elapsed * BLOCK_SECS in
    let seconds_remaining := blocks_remaining * BLOCK_SECS in
    EpochData.init (Some current_block)
                   (Some epoch)
                   (Some epoch_length)
                   (Some (epoch_length * BLOCK_SECS))
                   (Some percent_complete)
                   (Some blocks_elapsed)
                   (Some blocks_remaining)
                   (Some seconds_elapsed)
                   (Some seconds_remaining).

(** [get_overwatch_epoch_data] computes in stretches, with a fetch between
    them.  First stretch: from [epoch = current_block // epoch_length] to
    [seconds_remaining]. *)
Record epoch_locals : Type := mk_locals {
  l_epoch : Z;
  l_blocks_elapsed : Z;
  l_percent_complete : Q;
  l_blocks_remaining : Z;
  l_seconds_elapsed : Z;
  l_seconds_remaining : Z
}.

Definition overwatch_base (current_block epoch_length : Z) : outcome epoch_locals :=
  let? epoch := floordiv current_block epoch_length in
  let? blocks_elapsed := pymod current_block epoch_length in
  let? percent_complete := truediv blocks_elapsed epoch_length in
  let blocks_remaining := epoch_length - blocks_elapsed in
  let seconds_elapsed := blocks_elapsed * BLOCK_SECS in
  let seconds_remaining := blocks_remaining * BLOCK_SECS in
  Returns (mk_locals epoch blocks_elapsed percent_complete blocks_remaining
             seconds_elapsed seconds_remaining).

(** [block_increase_cutoff] and [epoch_cutoff_block], the two lines that
    [get_overwatch_epoch_data] and [in_overwatch_commit_period] share, on an
    int product and a float fraction. *)
Definition overwatch_cutoff_block (overwatch_epoch_length epoch : Z)
    (cutoff_percentage : Q) : Q :=
  let block_increase_cutoff := (inject_Z overwatch_epoch_length * cutoff_percentage)%Q in
  (inject_Z (overwatch_epoch_length * epoch) + block_increase_cutoff)%Q.

(** [x < y] on floats. *)
Definition Qltb (x y : Q) : bool :=
  Qnum x * QDen y <? Qnum y * QDen x.

(** The [if current_block > epoch_cutoff_block] statement. *)
Definition reveal_gap (current_block : Z) (epoch_cutoff_block : Q) : Q :=
  if Qltb epoch_cutoff_block (inject_Z current_block) then 0%Q
  else (epoch_cutoff_block - inject_Z current_block)%Q.

(** The [return OverwatchEpochData(...)] statement: ten keyword arguments;
    [overwatch_epoch] is not among them. *)
Definition overwatch_return (current_block epoch_length : Z) (v : epoch_locals)
    (seconds_remaining_until_reveal : Q) : outcome OverwatchEpochData.t :=
  OverwatchEpochData.init (Some current_block)
                          (Some (l_epoch v))
                          None
                          (Some epoch_length)
                          (Some (epoch_length * BLOCK_SECS))
                          (Some (l_percent_complete v))
                          (Some (l_blocks_elapsed v))
                          (Some (l_blocks_remaining v))
                          (Some (l_seconds_elapsed v))
                          (Some (l_seconds_remaining v))
                          (Some seconds_remaining_until_reveal).

End EpochArithmetic.

(** ** The node, seen from the client

    Every call the client makes to the outside (the [SubstrateInterface]
    object, [print], the sleep of the retry decorator) is an effect, recorded
    in a trace in the order performed.  What a call to the node answers is a
    function of the trace so far: the node may answer the same request
    differently each time. *)

Inductive effect : Type :=
| GetBlockHash (block_id : option Z)
| GetBlockNumber (block_hash : string)
| GetConstant (module_name constant_name : string)
| Query (module_name storage_function : string) (params : list Z)
| RpcRequest (method : string) (params : list Z)
| GetEvents (block_hash : string)
| ConnectWebsocket
| InitRuntime
| Close
| Print (text : string)
| Sleep (seconds : Z).

Definition trace : Type := list effect.

(** One entry of a block's event log: [event['event']]. *)
Record chain_event : Type := mk_event {
  module_id : string;
  event_id : string;
  attributes : list Z
}.

(** The payload of a custom RPC method: a dict from key to byte vector. *)
Definition rpc_response : Type := list (string * list Z).

(** The methods of [substrateinterface.SubstrateInterface] the client calls.
    A storage query or a constant is represented by the integer the returned
    object holds; [get_constant] answers [None] for an unknown constant.
    [get_block_hash] is declared [get_block_hash(self, block_id=None)]. *)
Class SubstrateInterface : Type := {
  websocket_connected : trace -> bool;
  connect_websocket : trace -> outcome unit;
  init_runtime : trace -> outcome unit;
  close : trace -> outcome unit;
  get_block_hash : trace -> option Z -> outcome string;
  get_block_number : trace -> string -> outcome Z;
  get_constant : trace -> string -> string -> outcome (option Z);
  query : trace -> string -> string -> list Z -> outcome Z;
  rpc_request : trace -> string -> list Z -> outcome rpc_response;
  get_events : trace -> string -> outcome (list chain_event)
}.

(** ** Computations with effects and exceptions *)

Definition M (A : Type) : Type := trace -> outcome A * trace.

Definition ret {A} (a : A) : M A := fun t => (Returns a, t).

Definition raise {A} (e : exn) : M A := fun t => (Raises e, t).

Definition lift {A} (r : outcome A) : M A := fun t => (r, t).

Definition bind {A B} (m : M A) (k : A -> M B) : M B :=
  fun t =>
    match m t with
    | (Returns a, t1) => k a t1
    | (Raises e, t1) => (Raises e, t1)
    end.

Notation "x <- m ;; k" := (bind m (fun x => k))
  (at level 61, m at next level, right associativity).
Notation "m ;;; k" := (bind m (fun _ => k))
  (at level 61, right associativity).

(** One call to the outside: the effect is recorded, the answer is the
    node's. *)
Definition perform {A} (e : effect) (answer : trace -> outcome A) : M A :=
  fun t => (answer t, t ++ [e]).

Definition print (text : string) : M unit :=
  perform (Print text) (fun _ => Returns tt).

(** [try: body except <classes> as e: handler] *)
Definition try_except {A} (body : M A) (classes : exn -> bool)
    (handler : exn -> M A) : M A :=
  fun t =>
    match body t with
    | (Returns a, t1) => (Returns a, t1)
    | (Raises e, t1) => if classes e then handler e t1 else (Raises e, t1)
    end.

Definition Exception (e : exn) : bool := true.

Definition is_SubstrateRequestException (e : exn) : bool :=
  match e with
  | SubstrateRequestException => true
  | _ => false
  end.

(** ** tenacity's [retry] decorator

    [retry(wait=wait_fixed(w), stop=stop_after_attempt(n), retry=p)]: call the
    function; a returned value is returned; an exception [p] rejects is
    raised as it is; an exception [p] accepts ends the call with
    [RetryError] when the attempt was the [n]-th, and otherwise is followed
    by a sleep of [w] and a new attempt.  The loop also yields the number of
    the last attempt, which tenacity keeps as [statistics["attempt_number"]]. *)

Section Retry.
Context {A : Type}.
Variable wait_fixed : Z.
Variable retry_if : exn -> bool.
Variable fn : M A.

Fixpoint retry_loop (attempt_number further : nat) (t : trace)
    : outcome A * nat * trace :=
  match fn t with
  | (Returns a, t1) => (Returns a, attempt_number, t1)
  | (Raises e, t1) =>
      if retry_if e then
        match further with
        | O => (Raises (RetryError e), attempt_number, t1)
        | S further' =>
            retry_loop (S attempt_number) further' (t1 ++ [Sleep wait_fixed])
        end
      else (Raises e, attempt_number, t1)
  end.

Definition retry_statistics (stop_after_attempt : nat) (t : trace)
    : outcome A * nat * trace :=
  retry_loop 1 (stop_after_attempt - 1) t.

Definition retry (stop_after_attempt : nat) : M A :=
  fun t =>
    let '(r, _, t1) := retry_statistics stop_after_attempt t in (r, t1).

(** The function fails [k] times in a row with exceptions the predicate
    accepts, each failure followed by the wait, and then returns [v]:
    [es] are the failures in order, [t'] is the trace at the return. *)
Inductive fails_then_returns : nat -> trace -> list exn -> A -> trace -> Prop :=
| ftr_returns (t : trace) (v : A) (t1 : trace) :
    fn t = (Returns v, t1) ->
    fails_then_returns O t [] v t1
| ftr_fails (k : nat) (t : trace) (e : exn) (t1 : trace)
            (es : list exn) (v : A) (t' : trace) :
    fn t = (Raises e, t1) ->
    retry_if e = true ->
    fails_then_returns k (t1 ++ [Sleep wait_fixed]) es v t' ->
    fails_then_returns (S k) t (e :: es) v t'.

(** The function fails as many times in a row as [es] has exceptions, all
    accepted by the predicate, with the wait between two attempts; [t'] is
    the trace at the last failure. *)
Inductive attempts_fail : trace -> list exn -> trace -> Prop :=
| af_last (t : trace) (e : exn) (t1 : trace) :
    fn t = (Raises e, t1) ->
    retry_if e = true ->
    attempts_fail t [e] t1
| af_more (t : trace) (e : exn) (t1 : trace) (e' : exn) (es : list exn)
          (t' : trace) :
    fn t = (Raises e, t1) ->
    retry_if e = true ->
    attempts_fail (t1 ++ [Sleep wait_fixed]) (e' :: es) t' ->
    attempts_fail t (e :: e' :: es) t'.

End Retry.

(** The exception classes [get_subnet_slot] asks tenacity to retry on; an
    instance of a subclass counts as its listed base class. *)
Definition slot_retryable (e : exn) : bool :=
  match e with
  | SubstrateRequestException
  | ConnectionError
  | AttributeError
  | WebSocketConnectionClosedException
  | WebSocketProtocolException => true
  | _ => false
  end.

(** ** Decoded records: [substrate/chain_data.py] *)

Inductive SubnetNodeClass : Type :=
| Registered
| Idle
| Included
| Validator.

(** [SubnetNodeClass.<member>.value] *)
Definition value (c : SubnetNodeClass) : Z :=
  match c with
  | Registered => 1
  | Idle => 2
  | Included => 3
  | Validator => 4
  end.

(** [SubnetNodeClass[name]]: a name that is no member raises [KeyError]. *)
Definition subnet_node_class_to_enum (name : string) : outcome SubnetNodeClass :=
  if String.eqb name "Registered" then Returns Registered
  else if String.eqb name "Idle" then Returns Idle
  else if String.eqb name "Included" then Returns Included
  else if String.eqb name "Validator" then Returns Validator
  else Raises KeyError.

(** The two entries of [node.classification] the client reads. *)
Record Classification : Type := mk_classification {
  node_class : string;
  start_epoch : Z
}.

(** [SubnetNodeInfo] and its decoder [SubnetNodeInfo.list_from_vec_u8] are
    declared in [substrate/chain_data.py], which is not part of the sources
    at hand: the record type, its [classification] and the decoder, which may
    raise on malformed bytes, stay parameters. *)
Class ChainData : Type := {
  SubnetNodeInfo : Type;
  classification : SubnetNodeInfo -> Classification;
  list_from_vec_u8 : list Z -> outcome (list SubnetNodeInfo)
}.

(** [d[key]] on a dict *)
Fixpoint dict_get {V : Type} (key : string) (d : list (string * V)) : outcome V :=
  match d with
  | [] => Raises KeyError
  | (k, v) :: d' => if String.eqb k key then Returns v else dict_get key d'
  end.

(** [result["result"]], where [result] may be [None] *)
Definition subscript_result (result : option rpc_response) : outcome (list Z) :=
  match result with
  | None => Raises TypeError
  | Some d => dict_get "result" d
  end.

(** ** The client: [class Hypertensor] *)

Section Hypertensor.
Context `{Config} `{SubstrateInterface} `{ChainData}.

(** [with self.interface as _interface: body].  [__enter__] returns the
    interface; [__exit__] closes it on every way out and does not suppress
    an exception of the body. *)
Definition with_interface {A} (body : M A) : M A :=
  fun t =>
    let (r, t1) := body t in
    match perform Close close t1 with
    | (Raises e, t2) => (Raises e, t2)
    | (Returns _, t2) => (r, t2)
    end.

(** The decoration shared by the query methods:
    [@retry(wait=wait_fixed(BLOCK_SECS+1), stop=stop_after_attempt(4))]. *)
Definition retry4 {A} (fn : M A) : M A :=
  retry (BLOCK_SECS + 1) Exception fn 4.

(** *** Storage queries and constants *)

Definition get_block_number_make_query : M (option Z) :=
  try_except
    (with_interface
       (block_hash <- perform (GetBlockHash None) (fun t => get_block_hash t None);;
        block_number <- perform (GetBlockNumber block_hash)
                          (fun t => get_block_number t block_hash);;
        ret (Some block_number)))
    is_SubstrateRequestException
    (fun e => print "Failed to get query request";;; ret None).

(** [Hypertensor.get_block_number]; [get_block_number] is the interface's
    method of that name. *)
Definition Hypertensor_get_block_number : M (option Z) :=
  retry4 get_block_number_make_query.

Definition get_epoch_length : M (option Z) :=
  retry4
    (try_except
       (with_interface
          (result <- perform (GetConstant "Network" "EpochLength")
                       (fun t => get_constant t "Network" "EpochLength");;
           ret result))
       is_SubstrateRequestException
       (fun e => print "Failed to get rpc request";;; ret None)).

Definition get_overwatch_epoch_multiplier : M (option Z) :=
  retry4
    (try_except
       (with_interface
          (result <- perform (Query "Network" "OverwatchEpochLengthMultiplier" [])
                       (fun t => query t "Network" "OverwatchEpochLengthMultiplier" []);;
           ret (Some result)))
       is_SubstrateRequestException
       (fun e => print "Failed to get rpc request";;; ret None)).

Definition get_overwatch_commit_cutoff_percent : M (option Z) :=
  retry4
    (try_except
       (with_interface
          (result <- perform (Query "Network" "OverwatchCommitCutoffPercent" [])
                       (fun t => query t "Network" "OverwatchCommitCutoffPercent" []);;
           ret (Some result)))
       is_SubstrateRequestException
       (fun e => print "Failed to get rpc request";;; ret None)).

(** *** [get_subnet_slot] *)

(** The [try] block of [make_query]. *)
Definition slot_try (subnet_id : Z) : M Z :=
  (fun t =>
     if websocket_connected t then ret tt t
     else perform ConnectWebsocket connect_websocket t);;;
  with_interface
    (result <- perform (Query "Network" "SubnetSlot" [subnet_id])
                 (fun t => query t "Network" "SubnetSlot" [subnet_id]);;
     print "result";;;
     ret result).

(** The [except Exception as e] block of [make_query]. *)
Definition slot_except (e : exn) : M Z :=
  try_except (perform Close close) Exception (fun _ => ret tt);;;
  perform ConnectWebsocket connect_websocket;;;
  perform InitRuntime init_runtime;;;
  raise e.

Definition slot_make_query (subnet_id : Z) : M Z :=
  try_except (slot_try subnet_id) Exception slot_except.

Definition slot_retry (subnet_id : Z) : M Z :=
  retry (BLOCK_SECS + 1) slot_retryable (slot_make_query subnet_id) 4.

Definition get_subnet_slot (subnet_id : Z) : M (option Z) :=
  try_except
    (result <- slot_retry subnet_id;; ret (Some result))
    Exception
    (fun e => ret None).

(** *** Custom RPC *)

Definition get_subnet_nodes_info (subnet_id : Z) : M (option rpc_response) :=
  retry4
    (try_except
       (with_interface
          (data <- perform (RpcRequest "network_getSubnetNodesInfo" [subnet_id])
                     (fun t => rpc_request t "network_getSubnetNodesInfo" [subnet_id]);;
           ret (Some data)))
       is_SubstrateRequestException
       (fun e => print "Failed to get rpc request";;; ret None)).

(** *** Events *)

(** The [for event in events] loop of [get_reward_result_event], with the
    value of [data] at [return data]. *)
Fixpoint scan_events (target_subnet_id : Z) (events : list chain_event)
    : outcome (option (Z * Z)) :=
  match events with
  | [] => Returns None
  | event :: events' =>
      if String.eqb (module_id event) "Network"
         && String.eqb (event_id event) "RewardResult"
      then
        match attributes event with
        | [subnet_id; attestation_percentage] =>
            if subnet_id =? target_subnet_id
            then Returns (Some (subnet_id, attestation_percentage))
            else scan_events target_subnet_id events'
        | _ => Raises ValueError
        end
      else scan_events target_subnet_id events'
  end.

(** [self.interface.get_block_hash(<keyword>=block)].  The one parameter of
    the method is [block_id]: with any other keyword Python raises
    [TypeError] while binding the arguments, before the method runs and
    before anything is sent to the node. *)
Definition get_block_hash_keyword (keyword : string) (block : Z) : M string :=
  if String.eqb keyword "block_id"
  then perform (GetBlockHash (Some block)) (fun t => get_block_hash t (Some block))
  else raise TypeError.

(** The decorated function of [get_reward_result_event]; its call is
    [get_block_hash(block_number=block_number)]. *)
Definition make_event_query (target_subnet_id epoch : Z) : M (option (Z * Z)) :=
  try_except
    (epoch_length <- get_epoch_length;;
     epoch_length <- lift (int_str epoch_length);;
     let block_number := epoch_length * epoch in
     block_hash <- get_block_hash_keyword "block_number" block_number;;
     with_interface
       (events <- perform (GetEvents block_hash) (fun t => get_events t block_hash);;
        lift (scan_events target_subnet_id events)))
    is_SubstrateRequestException
    (fun e => print "Failed to get rpc request";;; ret None).

Definition get_reward_result_event (target_subnet_id epoch : Z)
    : M (option (Z * Z)) :=
  retry4 (make_event_query target_subnet_id epoch).

(** *** Helpers *)

Definition get_epoch_data : M EpochData.t :=
  current_block <- Hypertensor_get_block_number;;
  epoch_length <- get_epoch_length;;
  current_block <- lift (int_str current_block);;
  epoch_length <- lift (int_str epoch_length);;
  lift (epoch_data current_block epoch_length).

Definition get_subnet_epoch_data (slot : Z) : M EpochData.t :=
  current_block <- Hypertensor_get_block_number;;
  current_block <- lift (int_str current_block);;
  epoch_length <- get_epoch_length;;
  epoch_length <- lift (int_str epoch_length);;
  lift (subnet_epoch_data current_block epoch_length slot).

(** [get_overwatch_epoch_data].  The block number and the epoch length are
    converted with [int(str(...))]; the multiplier and the cutoff percent are
    used as the query methods returned them.  The method is written out to
    its last line, although, as shown below, no run gets past the first
    product. *)
Definition get_overwatch_epoch_data : M OverwatchEpochData.t :=
  current_block <- Hypertensor_get_block_number;;
  epoch_length <- get_epoch_length;;
  current_block <- lift (int_str current_block);;
  epoch_length <- lift (int_str epoch_length);;
  v <- lift (overwatch_base current_block epoch_length);;
  multiplier <- get_overwatch_epoch_multiplier;;
  overwatch_epoch_length <- lift (int_times_fetched epoch_length multiplier);;
  cutoff_percent <- get_overwatch_commit_cutoff_percent;;
  cutoff_percentage <- lift (fetched_over_float cutoff_percent f1e18);;
  let epoch_cutoff_block :=
    overwatch_cutoff_block overwatch_epoch_length (l_epoch v) cutoff_percentage in
  let seconds_remaining_until_reveal := reveal_gap current_block epoch_cutoff_block in
  lift (overwatch_return current_block epoch_length v seconds_remaining_until_reveal).

(** [in_overwatch_commit_period], with the same two unconverted values. *)
Definition in_overwatch_commit_period : M bool :=
  epoch_data <- get_epoch_data;;
  let epoch_length := EpochData.block_per_epoch epoch_data in
  multiplier <- get_overwatch_epoch_multiplier;;
  overwatch_epoch_length <- lift (int_times_fetched epoch_length multiplier);;
  let current_epoch := EpochData.epoch epoch_data in
  cutoff_percent <- get_overwatch_commit_cutoff_percent;;
  cutoff_percentage <- lift (fetched_over_float cutoff_percent f1e18);;
  let epoch_cutoff_block :=
    overwatch_cutoff_block overwatch_epoch_length current_epoch cutoff_percentage in
  ret (Qltb (inject_Z (EpochData.block epoch_data)) epoch_cutoff_block).

(** *** Formatted *)

Definition get_subnet_nodes_info_formatted (subnet_id : Z)
    : M (option (list SubnetNodeInfo)) :=
  try_except
    (result <- get_subnet_nodes_info subnet_id;;
     vec <- lift (subscript_result result);;
     subnet_nodes_info <- lift (list_from_vec_u8 vec);;
     ret (Some subnet_nodes_info))
    Exception
    (fun e => ret None).

(** The list comprehension of [get_min_class_subnet_nodes_formatted]. *)
Fixpoint min_class_nodes (subnet_nodes : list SubnetNodeInfo) (subnet_epoch : Z)
    (min_class : SubnetNodeClass) : outcome (list SubnetNodeInfo) :=
  match subnet_nodes with
  | [] => Returns []
  | node :: subnet_nodes' =>
      let? c := subnet_node_class_to_enum (node_class (classification node)) in
      let keep := (value min_class <=? value c)
                  && (start_epoch (classification node) <=? subnet_epoch) in
      let? kept := min_class_nodes subnet_nodes' subnet_epoch min_class in
      Returns (if keep then node :: kept else kept)
  end.

Definition get_min_class_subnet_nodes_formatted (subnet_id subnet_epoch : Z)
    (min_class : SubnetNodeClass) : M (list SubnetNodeInfo) :=
  try_except
    (result <- get_subnet_nodes_info subnet_id;;
     vec <- lift (subscript_result result);;
     subnet_nodes <- lift (list_from_vec_u8 vec);;
     lift (min_class_nodes subnet_nodes subnet_epoch min_class))
    Exception
    (fun e => ret []).

End Hypertensor.

(** ** Further methods of the client *)

Section HypertensorFurther.
Context `{Config} `{SubstrateInterface} `{ChainData}.

(** [Hypertensor.get_epoch]: the division is made inside the decorated
    function. *)
Definition get_epoch_make_query : M (option Z) :=
  try_except
    (with_interface
       (block_hash <- perform (GetBlockHash None) (fun t => get_block_hash t None);;
        current_block <- perform (GetBlockNumber block_hash)
                           (fun t => get_block_number t block_hash);;
        epoch_length <- perform (GetConstant "Network" "EpochLength")
                          (fun t => get_constant t "Network" "EpochLength");;
        epoch_length <- lift (int_str epoch_length);;
        epoch <- lift (floordiv current_block epoch_length);;
        ret (Some epoch)))
    is_SubstrateRequestException
    (fun e => print "Failed to get query request";;; ret None).

Definition get_epoch : M (option Z) :=
  retry4 get_epoch_make_query.

End HypertensorFurther.

(** [SubnetNodeClass.<member>.name] *)
Definition member_name (c : SubnetNodeClass) : string :=
  match c with
  | Registered => "Registered"
  | Idle => "Idle"
  | Included => "Included"
  | Validator => "Validator"
  end.

(** ** The dashboard: [app/main.py] *)

(** The attributes of a decoded node the [subnet_node_infos] handler reads;
    the record is declared in [substrate/chain_data.py], so the accessors
    stay parameters.  [identity['name']] and [identity['x']] may be [None]. *)
Class NodeFields `{ChainData} : Type := {
  peer_id : SubnetNodeInfo -> string;
  coldkey : SubnetNodeInfo -> string;
  hotkey : SubnetNodeInfo -> string;
  identity_name : SubnetNodeInfo -> option string;
  identity_x : SubnetNodeInfo -> option string;
  reputation_score : SubnetNodeInfo -> Z;
  reputation_average_attestation : SubnetNodeInfo -> Z
}.

(** A JSON value that is a number or a text. *)
Inductive number_or_text : Type :=
| Number (q : Q)
| Text (s : string).

(** One dict of the list the handler sends. *)
Record node_row : Type := mk_row {
  row_peer_id : string;
  row_coldkey : string;
  row_hotkey : string;
  row_name : string;
  row_x : string;
  row_rep_score : Q;
  row_average_attestation : number_or_text
}.

(** [if not v: v = "None"], for a text that may be [None] or empty. *)
Definition or_None (v : option string) : string :=
  match v with
  | None => "None"
  | Some s => if String.eqb s "" then "None" else s
  end.

Section Dashboard.
Context `{Config} `{SubstrateInterface} `{NodeFields}.

(** The body of the [for node in subnet_nodes] loop. *)
Definition subnet_node_row (node : SubnetNodeInfo) : node_row :=
  let name := or_None (identity_name node) in
  let x := or_None (identity_x node) in
  let rep_score := (inject_Z (reputation_score node) / f1e18)%Q in
  let average_attestation :=
    (inject_Z (reputation_average_attestation node) / f1e18)%Q in
  let average_attestation :=
    if Qeq_bool average_attestation 0 then Text "None"
    else Number average_attestation in
  mk_row (peer_id node) (coldkey node) (hotkey node) name x rep_score
    average_attestation.

(** The [for] loop on what [get_subnet_nodes_info_formatted] returned:
    iterating [None] raises [TypeError]. *)
Definition subnet_node_rows (subnet_nodes : option (list SubnetNodeInfo))
    : outcome (list node_row) :=
  match subnet_nodes with
  | None => Raises TypeError
  | Some nodes => Returns (map subnet_node_row nodes)
  end.

(** One round of the [while True] loop of the [get_subnet_node_infos]
    handler, up to the list it hands to [send_json]. *)
Definition get_subnet_node_infos_round (subnet_id : Z) : M (list node_row) :=
  subnet_nodes <- get_subnet_nodes_info_formatted subnet_id;;
  print "get_subnet_node_infos subnet_nodes";;;
  lift (subnet_node_rows subnet_nodes).

End Dashboard.

(** ** Nodes and a decoder for running the model *)

(** The waits of the retry decorators recorded in a trace. *)
Fixpoint sleeps (t : trace) : nat :=
  match t with
  | [] => O
  | Sleep _ :: t' => S (sleeps t')
  | _ :: t' => sleeps t'
  end.

(** A node that answers every request, always with the same answers. *)
Definition steady_node (block_number epoch_length multiplier cutoff_percent slot : Z)
    (events : list chain_event) (payload : rpc_response) : SubstrateInterface :=
  {| websocket_connected := fun _ => true;
     connect_websocket := fun _ => Returns tt;
     init_runtime := fun _ => Returns tt;
     close := fun _ => Returns tt;
     get_block_hash := fun _ _ => Returns "0x2a"%string;
     get_block_number := fun _ _ => Returns block_number;
     get_constant := fun _ _ _ => Returns (Some epoch_length);
     query := fun _ _ storage_function _ =>
       if String.eqb storage_function "OverwatchEpochLengthMultiplier"
       then Returns multiplier
       else if String.eqb storage_function "OverwatchCommitCutoffPercent"
       then Returns cutoff_percent
       else Returns slot;
     rpc_request := fun _ _ _ => Returns payload;
     get_events := fun _ _ => Returns events |}.

(** A node whose requests fail with [e] until the client has waited [k]
    times, and that then behaves as [node]; its socket is down until then. *)
Definition flaky_node (k : nat) (e : exn) (node : SubstrateInterface)
    : SubstrateInterface :=
  let down (t : trace) := (sleeps t <? k)%nat in
  {| websocket_connected := fun t =>
       if down t then false else @websocket_connected node t;
     connect_websocket := @connect_websocket node;
     init_runtime := @init_runtime node;
     close := @close node;
     get_block_hash := fun t n =>
       if down t then Raises e else @get_block_hash node t n;
     get_block_number := fun t h =>
       if down t then Raises e else @get_block_number node t h;
     get_constant := fun t m c =>
       if down t then Raises e else @get_constant node t m c;
     query := fun t m f ps =>
       if down t then Raises e else @query node t m f ps;
     rpc_request := fun t m ps =>
       if down t then Raises e else @rpc_request node t m ps;
     get_events := fun t h =>
       if down t then Raises e else @get_events node t h |}.

Definition demo_class_name (b : Z) : string :=
  if b =? 1 then "Registered"
  else if b =? 2 then "Idle"
  else if b =? 3 then "Included"
  else if b =? 4 then "Validator"
  else "Unknown".

(** A decoder for examples: three bytes a node (identifier, class, start
    epoch); a vector of any other length is malformed. *)
Fixpoint demo_decode (vec : list Z) : outcome (list (Z * Classification)) :=
  match vec with
  | [] => Returns []
  | id :: c :: e :: vec' =>
      let? nodes := demo_decode vec' in
      Returns ((id, mk_classification (demo_class_name c) e) :: nodes)
  | _ => Raises ValueError
  end.

Definition demo_chain_data : ChainData :=
  {| SubnetNodeInfo := Z * Classification;
     classification := snd;
     list_from_vec_u8 := demo_decode |}.

(** Node attributes for examples: the identifier names the node, nothing
    else is recorded. *)
Definition demo_node_fields : @NodeFields demo_chain_data :=
  @Build_NodeFields demo_chain_data
    (fun node : Z * Classification =>
       if fst node =? 7 then "peer7"%string else "peer"%string)
    (fun _ => "cold"%string)
    (fun _ => "hot"%string)
    (fun node : Z * Classification =>
       if fst node =? 7 then Some ""%string else None)
    (fun _ => None)
    (fun node : Z * Classification => fst node * 10 ^ 17)
    (fun node : Z * Classification =>
       if fst node =? 7 then 0 else 10 ^ 18).

(** The block of the specification's worked example (block 175, epochs of
    100 blocks, slot 50), two reward events and three encoded nodes. *)
Definition demo_events : list chain_event :=
  [mk_event "Network" "RewardResult" [2; 10];
   mk_event "Network" "RewardResult" [1; 20]].

Definition demo_payload : rpc_response :=
  [("result"%string, [7; 3; 0; 8; 4; 9; 9; 1; 0])].

Definition demo_node : SubstrateInterface :=
  steady_node 175 100 2 (5 * 10 ^ 17) 50 demo_events demo_payload.

(** ** Notions used to state the properties *)

(** The ordinal of the class a node's classification names; 0 for a name
    that is no member of [SubnetNodeClass]. *)
Definition class_ordinal (name : string) : Z :=
  match subnet_node_class_to_enum name with
  | Returns c => value c
  | Raises _ => 0
  end.

(** The names of the members of [SubnetNodeClass]. *)
Definition class_names : list string :=
  ["Registered"; "Idle"; "Included"; "Validator"]%string.

(** A computation adds only effects that satisfy [P]: started at any trace,
    it ends at that trace extended by such effects. *)
Definition adds_only {A} (P : effect -> Prop) (m : M A) : Prop :=
  forall t, exists es, snd (m t) = t ++ es /\ Forall P es.

(** The effects that are not the storage query for the commit cutoff
    percent. *)
Definition not_cutoff_query (e : effect) : Prop :=
  e <> Query "Network" "OverwatchCommitCutoffPercent" [].

(** The effects that neither ask for a block hash nor read an event log. *)
Definition not_block_lookup (e : effect) : Prop :=
  match e with
  | GetBlockHash _ | GetEvents _ => False
  | _ => True
  end.

(** An event of the pair module [Network], event [RewardResult]. *)
Definition is_reward_result (event : chain_event) : bool :=
  String.eqb (module_id event) "Network"
  && String.eqb (event_id event) "RewardResult".

(** Such an event whose first attribute is the given subnet. *)
Definition is_reward_result_of (target_subnet_id : Z) (event : chain_event) : bool :=
  is_reward_result event
  && match attributes event with
     | subnet_id :: _ => subnet_id =? target_subnet_id
     | [] => false
     end.

(** * Properties *)

(** ** Arithmetic on floats *)

Lemma truediv_bounds (a b : Z) :
  0 <= a < b -> (0 <= inject_Z a / inject_Z b)%Q /\ (inject_Z a / inject_Z b < 1)%Q.
Proof.
  intros [Ha Hab].
  assert (Hb : (0 < inject_Z b)%Q) by (unfold Qlt; simpl; lia).
  split.
  - apply Qle_shift_div_l; [exact Hb|].
    rewrite Qmult_0_l. unfold Qle; simpl; lia.
  - apply Qlt_shift_div_r; [exact Hb|].
    rewrite Qmult_1_l. unfold Qlt; simpl; lia.
Qed.

(** ** The epoch calculator *)

Section EpochProperties.
Context `{Config}.

Lemma epoch_data_returns (current_block epoch_length : Z) :
  epoch_length <> 0 ->
  epoch_data current_block epoch_length =
  Returns (EpochData.mk current_block
             (current_block / epoch_length)
             epoch_length
             (epoch_length * BLOCK_SECS)
             (inject_Z (current_block mod epoch_length) / inject_Z epoch_length)%Q
             (current_block mod epoch_length)
             (epoch_length - current_block mod epoch_length)
             (current_block mod epoch_length * BLOCK_SECS)
             ((epoch_length - current_block mod epoch_length) * BLOCK_SECS)).
Proof.
  intros HL. unfold epoch_data, floordiv, pymod, truediv.
  apply Z.eqb_neq in HL. rewrite HL. reflexivity.
Qed.

(** C1. For [epoch_length > 0] the epoch-data calculation returns a record
    with [blocks_elapsed + blocks_remaining == epoch_length],
    [0 <= percent_complete < 1] and
    [percent_complete == blocks_elapsed / epoch_length]; the elapsed blocks
    themselves lie in [0, epoch_length). *)
Theorem epoch_data_invariant (current_block epoch_length : Z) :
  0 < epoch_length ->
  exists d,
    epoch_data current_block epoch_length = Returns d /\
    EpochData.blocks_elapsed d + EpochData.blocks_remaining d = epoch_length /\
    0 <= EpochData.blocks_elapsed d < epoch_length /\
    (0 <= EpochData.percent_complete d)%Q /\
    (EpochData.percent_complete d < 1)%Q /\
    EpochData.percent_complete d =
    (inject_Z (EpochData.blocks_elapsed d) / inject_Z epoch_length)%Q.
Proof.
  intros HL. eexists. split.
  - apply epoch_data_returns. lia.
  - cbn [EpochData.blocks_elapsed EpochData.blocks_remaining
         EpochData.percent_complete].
    pose proof (Z.mod_pos_bound current_block epoch_length HL) as Hm.
    destruct (truediv_bounds _ _ Hm) as [H0 H1].
    repeat split; [lia | lia | lia | exact H0 | exact H1].
Qed.

(** C2. For [epoch_length > 0]: before the slot the subnet calculation
    returns the zero state, with [epoch == 0] and
    [blocks_remaining == epoch_length]; from the slot on it returns what the
    plain calculation returns for [current_block - slot], with [block]
    holding the original [current_block]. *)
Theorem subnet_epoch_data_offset (current_block epoch_length slot : Z) :
  0 < epoch_length ->
  (current_block < slot ->
   exists z,
     subnet_epoch_data current_block epoch_length slot = Returns z /\
     EpochData.zero current_block epoch_length = Returns z /\
     EpochData.epoch z = 0 /\
     EpochData.blocks_remaining z = epoch_length) /\
  (slot <= current_block ->
   exists d,
     epoch_data (current_block - slot) epoch_length = Returns d /\
     subnet_epoch_data current_block epoch_length slot =
     Returns (EpochData.with_block current_block d)).
Proof.
  intros HL. split; intros Hs.
  - unfold subnet_epoch_data. apply Z.ltb_lt in Hs. rewrite Hs.
    eexists. repeat split.
  - eexists. split; [apply epoch_data_returns; lia|].
    unfold subnet_epoch_data, floordiv, pymod, truediv.
    apply Z.ltb_ge in Hs. rewrite Hs.
    assert (HL' : (epoch_length =? 0) = false) by (apply Z.eqb_neq; lia).
    rewrite HL'. reflexivity.
Qed.

Lemma overwatch_base_returns (current_block epoch_length : Z) :
  epoch_length <> 0 ->
  overwatch_base current_block epoch_length =
  Returns (mk_locals (current_block / epoch_length)
             (current_block mod epoch_length)
             (inject_Z (current_block mod epoch_length) / inject_Z epoch_length)%Q
             (epoch_length - current_block mod epoch_length)
             (current_block mod epoch_length * BLOCK_SECS)
             ((epoch_length - current_block mod epoch_length) * BLOCK_SECS)).
Proof.
  intros HL. unfold overwatch_base, floordiv, pymod, truediv.
  apply Z.eqb_neq in HL. rewrite HL. reflexivity.
Qed.

Lemma overwatch_base_zero (current_block : Z) :
  overwatch_base current_block 0 = Raises ZeroDivisionError.
Proof. reflexivity. Qed.

(** The constructor call [get_overwatch_epoch_data] ends with raises
    whatever values it is given: [overwatch_epoch] is required and is not
    passed. *)
Lemma overwatch_return_raises (current_block epoch_length : Z) (v : epoch_locals)
    (seconds_remaining_until_reveal : Q) :
  overwatch_return current_block epoch_length v seconds_remaining_until_reveal
  = Raises TypeError.
Proof. reflexivity. Qed.

End EpochProperties.

(** ** Effects: running a computation *)

Lemma bind_Returns {A B} (m : M A) (k : A -> M B) (t t1 : trace) (a : A) :
  m t = (Returns a, t1) -> bind m k t = k a t1.
Proof. intros Hm. unfold bind. rewrite Hm. reflexivity. Qed.

Lemma bind_Raises {A B} (m : M A) (k : A -> M B) (t t1 : trace) (e : exn) :
  m t = (Raises e, t1) -> bind m k t = (Raises e, t1).
Proof. intros Hm. unfold bind. rewrite Hm. reflexivity. Qed.

Lemma try_except_Returns {A} (body : M A) (classes : exn -> bool)
    (handler : exn -> M A) (t t1 : trace) (a : A) :
  body t = (Returns a, t1) -> try_except body classes handler t = (Returns a, t1).
Proof. intros Hb. unfold try_except. rewrite Hb. reflexivity. Qed.

Lemma try_except_caught {A} (body : M A) (classes : exn -> bool)
    (handler : exn -> M A) (t t1 : trace) (e : exn) :
  body t = (Raises e, t1) -> classes e = true ->
  try_except body classes handler t = handler e t1.
Proof. intros Hb Hc. unfold try_except. rewrite Hb, Hc. reflexivity. Qed.

(** ** The effects a computation adds *)

Lemma adds_only_ext {A} (P : effect -> Prop) (m m' : M A) :
  (forall t, m t = m' t) -> adds_only P m' -> adds_only P m.
Proof. intros He Hm t. rewrite He. apply Hm. Qed.

Lemma adds_only_ret {A} (P : effect -> Prop) (a : A) : adds_only P (ret a).
Proof.
  intros t. exists []. rewrite app_nil_r. split; [reflexivity | apply Forall_nil].
Qed.

Lemma adds_only_raise {A} (P : effect -> Prop) (e : exn) :
  adds_only P (@raise A e).
Proof.
  intros t. exists []. rewrite app_nil_r. split; [reflexivity | apply Forall_nil].
Qed.

Lemma adds_only_lift {A} (P : effect -> Prop) (r : outcome A) :
  adds_only P (lift r).
Proof.
  intros t. exists []. rewrite app_nil_r. split; [reflexivity | apply Forall_nil].
Qed.

Lemma adds_only_perform {A} (P : effect -> Prop) (e : effect)
    (answer : trace -> outcome A) :
  P e -> adds_only P (perform e answer).
Proof.
  intros He t. exists [e]. split; [reflexivity|].
  apply Forall_cons; [exact He | apply Forall_nil].
Qed.

Lemma adds_only_bind {A B} (P : effect -> Prop) (m : M A) (k : A -> M B) :
  adds_only P m -> (forall a, adds_only P (k a)) -> adds_only P (bind m k).
Proof.
  intros Hm Hk t. unfold bind.
  destruct (Hm t) as (es & Ht & Hes).
  destruct (m t) as [[a|e] t1]; cbn [snd] in Ht; subst t1.
  - destruct (Hk a (t ++ es)) as (es' & Ht' & Hes').
    exists (es ++ es'). rewrite app_assoc.
    split; [exact Ht' | apply Forall_app; split; assumption].
  - exists es. split; [reflexivity | exact Hes].
Qed.

Lemma adds_only_try_except {A} (P : effect -> Prop) (body : M A)
    (classes : exn -> bool) (handler : exn -> M A) :
  adds_only P body -> (forall e, adds_only P (handler e)) ->
  adds_only P (try_except body classes handler).
Proof.
  intros Hb Hh t. unfold try_except.
  destruct (Hb t) as (es & Ht & Hes).
  destruct (body t) as [[a|e] t1]; cbn [snd] in Ht; subst t1.
  - exists es. split; [reflexivity | exact Hes].
  - destruct (classes e).
    + destruct (Hh e (t ++ es)) as (es' & Ht' & Hes').
      exists (es ++ es'). rewrite app_assoc.
      split; [exact Ht' | apply Forall_app; split; assumption].
    + exists es. split; [reflexivity | exact Hes].
Qed.

(** ** The retry decorator *)

Section RetryProperties.
Context {A : Type}.
Variable wait_fixed : Z.
Variable retry_if : exn -> bool.
Variable fn : M A.

Lemma retry_loop_returns (k : nat) (t : trace) (es : list exn) (v : A) (t' : trace) :
  fails_then_returns wait_fixed retry_if fn k t es v t' ->
  forall n further, (k <= further)%nat ->
  retry_loop wait_fixed retry_if fn n further t = (Returns v, (n + k)%nat, t').
Proof.
  induction 1 as [t v t1 Hfn | k t e t1 es v t' Hfn He _ IH];
    intros n further Hk.
  - destruct further; simpl; rewrite Hfn, Nat.add_0_r; reflexivity.
  - destruct further as [|further]; [lia|].
    simpl. rewrite Hfn, He.
    rewrite (IH (S n) further) by lia.
    f_equal. f_equal. lia.
Qed.

Lemma retry_loop_exhausted (k : nat) (t : trace) (es : list exn) (v : A) (t' : trace) :
  fails_then_returns wait_fixed retry_if fn k t es v t' ->
  forall n further, (further < k)%nat ->
  exists e t_last,
    nth_error es further = Some e /\
    retry_loop wait_fixed retry_if fn n further t
    = (Raises (RetryError e), (n + further)%nat, t_last).
Proof.
  induction 1 as [t v t1 Hfn | k t e t1 es v t' Hfn He _ IH];
    intros n further Hk; [lia|].
  destruct further as [|further].
  - exists e, t1. split; [reflexivity|].
    simpl. rewrite Hfn, He, Nat.add_0_r. reflexivity.
  - destruct (IH (S n) further) as (e' & t_last & Hnth & Hloop); [lia|].
    exists e', t_last. split; [exact Hnth|].
    simpl. rewrite Hfn, He, Hloop.
    f_equal. f_equal. lia.
Qed.

Lemma retry_loop_gives_up (t : trace) (es : list exn) (t' : trace) :
  attempts_fail wait_fixed retry_if fn t es t' ->
  forall n further,
    List.length es = S further ->
    retry_loop wait_fixed retry_if fn n further t
    = (Raises (RetryError (last es KeyError)), (n + further)%nat, t').
Proof.
  induction 1 as [t e t1 Hfn He | t e t1 e' es t' Hfn He _ IH];
    intros n further Hlen.
  - injection Hlen as <-. simpl. rewrite Hfn, He, Nat.add_0_r. reflexivity.
  - destruct further as [|further]; [discriminate|].
    assert (Hlen' : List.length (e' :: es) = S further)
      by (cbn [List.length] in Hlen |- *; lia).
    cbn [retry_loop]. rewrite Hfn, He, (IH (S n) further Hlen').
    change (last (e :: e' :: es) KeyError) with (last (e' :: es) KeyError).
    f_equal. f_equal. lia.
Qed.

(** When every exception is retried, what the loop raises is a
    [RetryError]. *)
Lemma retry_loop_raises_RetryError (further n : nat) (t : trace) (e : exn)
    (k : nat) (t' : trace) :
  (forall e, retry_if e = true) ->
  retry_loop wait_fixed retry_if fn n further t = (Raises e, k, t') ->
  exists e', e = RetryError e'.
Proof.
  intros Hall. revert n t.
  induction further as [|further IH]; intros n t; cbn [retry_loop];
    destruct (fn t) as [[v|e1] t1]; try discriminate; rewrite Hall.
  - intros Hx. injection Hx as <- _ _. eauto.
  - apply IH.
Qed.

(** A function that raises at every attempt uses up the attempts. *)
Lemma retry_loop_never_returns (further n : nat) (t : trace) :
  (forall e, retry_if e = true) ->
  (forall t, exists e t1, fn t = (Raises e, t1)) ->
  exists e t',
    retry_loop wait_fixed retry_if fn n further t
    = (Raises (RetryError e), (n + further)%nat, t').
Proof.
  intros Hall Hfn. revert n t.
  induction further as [|further IH]; intros n t; cbn [retry_loop];
    destruct (Hfn t) as (e & t1 & He); rewrite He, Hall.
  - rewrite Nat.add_0_r. eauto.
  - destruct (IH (S n) (t1 ++ [Sleep wait_fixed])) as (e' & t' & Hl).
    rewrite Hl. exists e', t'. f_equal. f_equal. lia.
Qed.

Lemma adds_only_retry_loop (P : effect -> Prop) (further n : nat) (t : trace) :
  P (Sleep wait_fixed) -> adds_only P fn ->
  exists es,
    snd (retry_loop wait_fixed retry_if fn n further t) = t ++ es /\ Forall P es.
Proof.
  intros Hs Hfn. revert n t.
  induction further as [|further IH]; intros n t; cbn [retry_loop];
    destruct (Hfn t) as (es & Ht & Hes);
    destruct (fn t) as [[v|e] t1]; cbn [snd] in Ht; subst t1;
    try (exists es; split; [reflexivity | exact Hes]).
  - destruct (retry_if e); exists es; (split; [reflexivity | exact Hes]).
  - destruct (retry_if e); [|exists es; split; [reflexivity | exact Hes]].
    destruct (IH (S n) ((t ++ es) ++ [Sleep wait_fixed])) as (es' & Ht' & Hes').
    exists (es ++ Sleep wait_fixed :: es'). split.
    + rewrite Ht', <- !app_assoc. reflexivity.
    + apply Forall_app. split; [exact Hes|]. apply Forall_cons; assumption.
Qed.

Lemma adds_only_retry (P : effect -> Prop) (stop : nat) :
  P (Sleep wait_fixed) -> adds_only P fn ->
  adds_only P (retry wait_fixed retry_if fn stop).
Proof.
  intros Hs Hfn t. unfold retry, retry_statistics.
  destruct (adds_only_retry_loop P (stop - 1) 1 t Hs Hfn) as (es & Ht & Hes).
  destruct (retry_loop wait_fixed retry_if fn 1 (stop - 1) t) as [[r k] t1].
  exists es. split; [exact Ht | exact Hes].
Qed.

Lemma retry_of_statistics (stop : nat) (t t1 : trace) (r : outcome A) (n : nat) :
  retry_statistics wait_fixed retry_if fn stop t = (r, n, t1) ->
  retry wait_fixed retry_if fn stop t = (r, t1).
Proof. intros Hs. unfold retry. rewrite Hs. reflexivity. Qed.

(** C4. An operation under the retry decorator with [stop_after_attempt(4)]
    that fails [k] times with a retryable exception and then succeeds: for
    [k < 4] the call returns the operation's value after [k+1] attempts; for
    [k >= 4] the call makes 4 attempts and raises [RetryError] holding the
    failure of the fourth, the last one made. *)
Theorem retry_four_attempts (k : nat) (t : trace) (es : list exn) (v : A)
    (t' : trace) :
  fails_then_returns wait_fixed retry_if fn k t es v t' ->
  ((k < 4)%nat ->
   retry_statistics wait_fixed retry_if fn 4 t = (Returns v, S k, t') /\
   retry wait_fixed retry_if fn 4 t = (Returns v, t')) /\
  ((4 <= k)%nat ->
   exists e t_last,
     nth_error es 3 = Some e /\
     retry_statistics wait_fixed retry_if fn 4 t
     = (Raises (RetryError e), 4%nat, t_last) /\
     retry wait_fixed retry_if fn 4 t = (Raises (RetryError e), t_last)).
Proof.
  intros Hk. split; intros Hlt.
  - assert (Hs : retry_statistics wait_fixed retry_if fn 4 t = (Returns v, S k, t')).
    { unfold retry_statistics. simpl Nat.sub.
      rewrite (retry_loop_returns _ _ _ _ _ Hk) by lia. reflexivity. }
    split; [exact Hs | exact (retry_of_statistics _ _ _ _ _ Hs)].
  - destruct (retry_loop_exhausted _ _ _ _ _ Hk 1%nat 3%nat) as (e & t_last & Hn & Hl);
      [lia|].
    exists e, t_last. split; [exact Hn|].
    assert (Hs : retry_statistics wait_fixed retry_if fn 4 t
                 = (Raises (RetryError e), 4%nat, t_last)) by exact Hl.
    split; [exact Hs | exact (retry_of_statistics _ _ _ _ _ Hs)].
Qed.

End RetryProperties.

(** ** The client *)

Section HypertensorProperties.
Context `{Config} `{SubstrateInterface} `{ChainData}.

Lemma retry_Returns {A} (w : Z) (p : exn -> bool) (fn : M A) (n : nat)
    (t t1 : trace) (a : A) :
  fn t = (Returns a, t1) -> retry w p fn n t = (Returns a, t1).
Proof.
  intros Hfn. unfold retry, retry_statistics.
  destruct (n - 1)%nat; simpl; rewrite Hfn; reflexivity.
Qed.

Lemma app_two {X} (l : list X) (a b : X) : (l ++ [a]) ++ [b] = l ++ [a; b].
Proof. rewrite <- app_assoc. reflexivity. Qed.

Lemma app_three {X} (l : list X) (a b c : X) :
  ((l ++ [a]) ++ [b]) ++ [c] = l ++ [a; b; c].
Proof. rewrite <- !app_assoc. reflexivity. Qed.

(** *** What the decorated function of [get_block_number] does with a failing
    request *)

(** An exception of the request other than [SubstrateRequestException]
    leaves the function: the decorator sees it. *)
Lemma get_block_number_make_query_raises (t : trace) (e : exn) :
  get_block_hash t None = Raises e ->
  is_SubstrateRequestException e = false ->
  close (t ++ [GetBlockHash None]) = Returns tt ->
  get_block_number_make_query t = (Raises e, t ++ [GetBlockHash None; Close]).
Proof.
  intros Hh He Hc.
  unfold get_block_number_make_query, try_except, with_interface, bind, perform.
  rewrite Hh, Hc, He, app_two. reflexivity.
Qed.

(** A [SubstrateRequestException] of the request does not: the function
    prints and returns [None]. *)
Lemma get_block_number_make_query_refused (t : trace) :
  get_block_hash t None = Raises SubstrateRequestException ->
  close (t ++ [GetBlockHash None]) = Returns tt ->
  get_block_number_make_query t
  = (Returns None,
     t ++ [GetBlockHash None; Close; Print "Failed to get query request"]).
Proof.
  intros Hh Hc.
  unfold get_block_number_make_query, try_except, with_interface, bind, perform,
    print, ret.
  rewrite Hh, Hc. cbn [is_SubstrateRequestException].
  unfold perform. rewrite <- !app_assoc. reflexivity.
Qed.

(** *** [get_subnet_slot] *)

Lemma slot_make_query_reconnects (subnet_id : Z) (t t' : trace) (e : exn) :
  slot_make_query subnet_id t = (Raises e, t') ->
  exists e1 t1,
    slot_try subnet_id t = (Raises e1, t1) /\
    ((t' = t1 ++ [Close; ConnectWebsocket] /\
      connect_websocket (t1 ++ [Close]) = Raises e) \/
     (t' = t1 ++ [Close; ConnectWebsocket; InitRuntime] /\
      connect_websocket (t1 ++ [Close]) = Returns tt /\
      (init_runtime (t1 ++ [Close; ConnectWebsocket]) = Raises e \/
       (init_runtime (t1 ++ [Close; ConnectWebsocket]) = Returns tt /\ e = e1)))).
Proof.
  unfold slot_make_query, try_except.
  destruct (slot_try subnet_id t) as [[v|e1] t1]; [discriminate|].
  cbn [Exception]. intros Hx. exists e1, t1. split; [reflexivity|].
  revert Hx. unfold slot_except, bind, try_except, perform, ret, raise.
  cbn [Exception].
  destruct (close t1) as [u|ec]; cbn -[app];
    (destruct (connect_websocket (t1 ++ [Close])) as [[]|e2]; cbn -[app];
     [ rewrite !app_two;
       destruct (init_runtime (t1 ++ [Close; ConnectWebsocket])) as [[]|e3];
       cbn -[app]; intros Hx; inversion Hx; subst; right;
       rewrite <- app_assoc; repeat split; auto
     | rewrite !app_two; intros Hx; inversion Hx; subst; left;
       split; reflexivity ]).
Qed.

Lemma get_subnet_slot_total (subnet_id : Z) (t : trace) :
  exists r t', get_subnet_slot subnet_id t = (Returns r, t').
Proof.
  unfold get_subnet_slot, try_except, bind, ret.
  destruct (slot_retry subnet_id t) as [[v|e] t1]; cbn [Exception]; eauto.
Qed.

Lemma get_subnet_slot_absent (subnet_id : Z) (t t1 : trace) (e : exn) :
  slot_retry subnet_id t = (Raises e, t1) ->
  get_subnet_slot subnet_id t = (Returns None, t1).
Proof.
  intros Hr. unfold get_subnet_slot, try_except, bind, ret.
  rewrite Hr. reflexivity.
Qed.

(** C5. [get_subnet_slot]: an attempt that fails has closed the interface
    (whatever the close did), reconnected the socket and, once reconnected,
    reloaded the runtime before the retry decorator sees the failure; when
    four attempts in a row have failed with exceptions of the retried classes
    the method returns [None]; and it never raises. *)
Theorem get_subnet_slot_reconnects_then_absent (subnet_id : Z) (t : trace) :
  (forall e t',
      slot_make_query subnet_id t = (Raises e, t') ->
      exists e1 t1,
        slot_try subnet_id t = (Raises e1, t1) /\
        ((t' = t1 ++ [Close; ConnectWebsocket] /\
          connect_websocket (t1 ++ [Close]) = Raises e) \/
         (t' = t1 ++ [Close; ConnectWebsocket; InitRuntime] /\
          connect_websocket (t1 ++ [Close]) = Returns tt /\
          (init_runtime (t1 ++ [Close; ConnectWebsocket]) = Raises e \/
           (init_runtime (t1 ++ [Close; ConnectWebsocket]) = Returns tt /\
            e = e1))))) /\
  (forall e1 e2 e3 e4 t',
      attempts_fail (BLOCK_SECS + 1) slot_retryable (slot_make_query subnet_id)
        t [e1; e2; e3; e4] t' ->
      retry_statistics (BLOCK_SECS + 1) slot_retryable
        (slot_make_query subnet_id) 4 t
      = (Raises (RetryError e4), 4%nat, t') /\
      get_subnet_slot subnet_id t = (Returns None, t')) /\
  (exists r t', get_subnet_slot subnet_id t = (Returns r, t')).
Proof.
  split; [|split].
  - intros e t'. apply slot_make_query_reconnects.
  - intros e1 e2 e3 e4 t' Hf.
    pose proof (retry_loop_gives_up _ _ _ _ _ _ Hf 1%nat 3%nat eq_refl) as Hl.
    cbn [Nat.add last] in Hl.
    split; [exact Hl|].
    apply (get_subnet_slot_absent _ _ _ (RetryError e4)).
    unfold slot_retry. apply (retry_of_statistics _ _ _ _ _ _ _ 4%nat). exact Hl.
  - apply get_subnet_slot_total.
Qed.

(** *** The helpers, once their fetches have succeeded *)

Lemma get_epoch_data_fetched (t t1 t2 : trace) (current_block epoch_length : Z) :
  Hypertensor_get_block_number t = (Returns (Some current_block), t1) ->
  get_epoch_length t1 = (Returns (Some epoch_length), t2) ->
  get_epoch_data t = (epoch_data current_block epoch_length, t2).
Proof.
  intros Hb Hl. unfold get_epoch_data.
  rewrite (bind_Returns _ _ _ _ _ Hb), (bind_Returns _ _ _ _ _ Hl).
  reflexivity.
Qed.

Lemma get_subnet_epoch_data_fetched (slot : Z) (t t1 t2 : trace)
    (current_block epoch_length : Z) :
  Hypertensor_get_block_number t = (Returns (Some current_block), t1) ->
  get_epoch_length t1 = (Returns (Some epoch_length), t2) ->
  get_subnet_epoch_data slot t
  = (subnet_epoch_data current_block epoch_length slot, t2).
Proof.
  intros Hb Hl. unfold get_subnet_epoch_data.
  rewrite (bind_Returns _ _ _ _ _ Hb).
  unfold bind at 1, lift at 1. cbn [int_str].
  rewrite (bind_Returns _ _ _ _ _ Hl). reflexivity.
Qed.

(** *** The effects of the query methods *)

Lemma adds_only_with_interface {A} (P : effect -> Prop) (body : M A) :
  P Close -> adds_only P body -> adds_only P (with_interface body).
Proof.
  intros Hc Hb t. unfold with_interface, perform.
  destruct (Hb t) as (es & Ht & Hes).
  destruct (body t) as [r t1]. cbn [snd] in Ht. subst t1.
  exists (es ++ [Close]). split.
  - destruct (close (t ++ es)); cbn [snd]; rewrite app_assoc; reflexivity.
  - apply Forall_app. split; [exact Hes|].
    apply Forall_cons; [exact Hc | apply Forall_nil].
Qed.

(** The block number, the epoch length and the multiplier are fetched
    without asking for the commit cutoff percent. *)
Lemma fetches_not_cutoff_query :
  adds_only not_cutoff_query Hypertensor_get_block_number /\
  adds_only not_cutoff_query get_epoch_length /\
  adds_only not_cutoff_query get_overwatch_epoch_multiplier.
Proof.
  unfold Hypertensor_get_block_number, get_block_number_make_query,
    get_epoch_length, get_overwatch_epoch_multiplier, retry4, print.
  repeat split;
    repeat (intros;
            first [ apply adds_only_retry | apply adds_only_try_except
                  | apply adds_only_with_interface | apply adds_only_bind
                  | apply adds_only_perform | apply adds_only_ret ]);
    intros; unfold not_cutoff_query; discriminate.
Qed.

(** The epoch length is fetched without asking for a block hash or an event
    log. *)
Lemma get_epoch_length_not_block_lookup :
  adds_only not_block_lookup get_epoch_length.
Proof.
  unfold get_epoch_length, retry4, print.
  repeat (intros;
          first [ apply adds_only_retry | apply adds_only_try_except
                | apply adds_only_with_interface | apply adds_only_bind
                | apply adds_only_perform | apply adds_only_ret ]);
    exact I.
Qed.

(** What a decorated query method raises is a [RetryError], which no
    [except SubstrateRequestException] catches. *)
Lemma retry4_raises_RetryError {A} (fn : M A) (t t1 : trace) (e : exn) :
  retry4 fn t = (Raises e, t1) -> exists e', e = RetryError e'.
Proof.
  unfold retry4, retry, retry_statistics. cbn [Nat.sub].
  destruct (retry_loop (BLOCK_SECS + 1) Exception fn 1 3 t) as [[r k] t'] eqn:Hl.
  intros Hx. injection Hx as -> _.
  apply (retry_loop_raises_RetryError _ _ _ _ _ _ _ _ _ (fun _ => eq_refl) Hl).
Qed.

(** *** [get_overwatch_epoch_data] *)

(** The product [epoch_length * multiplier] ends the method, whatever
    follows it. *)
Lemma int_times_fetched_ends {A} (a : Z) (v : option Z) (k : Z -> M A) (t : trace) :
  bind (lift (int_times_fetched a v)) k t = (Raises TypeError, t).
Proof. destruct v; reflexivity. Qed.

(** C6, what the code does. When the block number, the epoch length and the
    multiplier have been fetched and the epoch length is not zero,
    [get_overwatch_epoch_data] raises [TypeError]: at the product of the
    epoch length and the multiplier, which is used as the query returned it.
    The constructor call the method would end with raises [TypeError] as
    well, whatever it is given: it does not pass the required
    [overwatch_epoch]. *)
Theorem get_overwatch_epoch_data_fails (t t1 t2 t3 : trace)
    (current_block epoch_length : Z) (multiplier : option Z) :
  Hypertensor_get_block_number t = (Returns (Some current_block), t1) ->
  get_epoch_length t1 = (Returns (Some epoch_length), t2) ->
  get_overwatch_epoch_multiplier t2 = (Returns multiplier, t3) ->
  epoch_length <> 0 ->
  get_overwatch_epoch_data t = (Raises TypeError, t3) /\
  (forall v seconds_remaining_until_reveal,
      overwatch_return current_block epoch_length v seconds_remaining_until_reveal
      = Raises TypeError).
Proof.
  intros Hb Hl Hm HL. split; [|intros v s; apply overwatch_return_raises].
  unfold get_overwatch_epoch_data.
  rewrite (bind_Returns _ _ _ _ _ Hb).
  rewrite (bind_Returns _ _ _ _ _ Hl).
  unfold bind at 1 2, lift at 1 2. cbn [int_str].
  unfold bind at 1, lift at 1. rewrite (overwatch_base_returns _ _ HL).
  rewrite (bind_Returns _ _ _ _ _ Hm).
  apply int_times_fetched_ends.
Qed.

(** C3, what the code does. No run of [get_overwatch_epoch_data] returns,
    and no run asks the node for the commit cutoff percent: the method ends
    in an exception before the lines that compute the cutoff block and
    [seconds_remaining_until_reveal], so that value is never computed. *)
Theorem overwatch_reveal_never_computed (t : trace) :
  exists e es,
    get_overwatch_epoch_data t = (Raises e, t ++ es) /\
    ~ In (Query "Network" "OverwatchCommitCutoffPercent" []) es.
Proof.
  assert (Hraises : exists e t', get_overwatch_epoch_data t = (Raises e, t')).
  { unfold get_overwatch_epoch_data, bind, lift.
    destruct (Hypertensor_get_block_number t) as [[cb|e] t1]; [|eauto].
    destruct (get_epoch_length t1) as [[L|e] t2]; [|eauto].
    destruct (int_str cb) as [cb'|e]; [|eauto].
    destruct (int_str L) as [L'|e]; [|eauto].
    destruct (overwatch_base cb' L') as [v|e]; [|eauto].
    destruct (get_overwatch_epoch_multiplier t2) as [[m|e] t3]; [|eauto].
    destruct m; cbn [int_times_fetched]; eauto. }
  assert (Hadds : adds_only not_cutoff_query get_overwatch_epoch_data).
  { destruct fetches_not_cutoff_query as (Hb & Hl & Hm).
    unfold get_overwatch_epoch_data.
    apply adds_only_bind; [exact Hb | intros current_block].
    apply adds_only_bind; [exact Hl | intros epoch_length].
    apply adds_only_bind; [apply adds_only_lift | intros current_block'].
    apply adds_only_bind; [apply adds_only_lift | intros epoch_length'].
    apply adds_only_bind; [apply adds_only_lift | intros v].
    apply adds_only_bind; [exact Hm | intros multiplier].
    apply (adds_only_ext _ _ (raise TypeError));
      [intros t0; apply int_times_fetched_ends | apply adds_only_raise]. }
  destruct Hraises as (e & t' & Hr). destruct (Hadds t) as (es & Ht & Hes).
  rewrite Hr in Ht. cbn [snd] in Ht. subst t'.
  exists e, es. split; [exact Hr|].
  intros Hin. rewrite Forall_forall in Hes. exact (Hes _ Hin eq_refl).
Qed.

(** *** [in_overwatch_commit_period] *)

(** C9, what the code does. No run of [in_overwatch_commit_period] answers
    [True] or [False]: every run ends in an exception; and when the epoch
    data are there and the multiplier has been fetched, the exception is the
    [TypeError] of the product of the epoch length and the multiplier, raised
    before the cutoff percent is asked for. *)
Theorem in_overwatch_commit_period_never_answers (t : trace) :
  (exists e t', in_overwatch_commit_period t = (Raises e, t')) /\
  (forall epoch_data t2 multiplier t3,
      get_epoch_data t = (Returns epoch_data, t2) ->
      get_overwatch_epoch_multiplier t2 = (Returns multiplier, t3) ->
      in_overwatch_commit_period t = (Raises TypeError, t3)).
Proof.
  split.
  - unfold in_overwatch_commit_period. unfold bind at 1.
    destruct (get_epoch_data t) as [[d|e] t2]; [|eauto].
    unfold bind at 1.
    destruct (get_overwatch_epoch_multiplier t2) as [[m|e] t3]; [|eauto].
    rewrite int_times_fetched_ends. eauto.
  - intros d t2 m t3 Hd Hm. unfold in_overwatch_commit_period.
    rewrite (bind_Returns _ _ _ _ _ Hd). cbv zeta.
    rewrite (bind_Returns _ _ _ _ _ Hm).
    apply int_times_fetched_ends.
Qed.

(** *** The formatted node lists *)

Lemma class_names_enum (name : string) :
  In name class_names ->
  exists c, subnet_node_class_to_enum name = Returns c /\ class_ordinal name = value c.
Proof.
  unfold class_names, class_ordinal. simpl.
  intros [<-|[<-|[<-|[<-|[]]]]]; eexists; split; reflexivity.
Qed.

(** The comprehension on nodes whose class names are members. *)
Lemma min_class_nodes_filter (subnet_nodes : list SubnetNodeInfo)
    (subnet_epoch : Z) (min_class : SubnetNodeClass) :
  Forall (fun node => In (node_class (classification node)) class_names)
    subnet_nodes ->
  min_class_nodes subnet_nodes subnet_epoch min_class =
  Returns (filter
             (fun node =>
                (value min_class <=? class_ordinal (node_class (classification node)))
                && (start_epoch (classification node) <=? subnet_epoch))
             subnet_nodes).
Proof.
  induction 1 as [|node nodes Hnode _ IH]; [reflexivity|].
  destruct (class_names_enum _ Hnode) as (c & Hc & Ho).
  cbn [min_class_nodes filter]. rewrite Hc, IH, Ho. cbn [obind].
  destruct ((value min_class <=? value c)
            && (start_epoch (classification node) <=? subnet_epoch));
    reflexivity.
Qed.

(** A class name that is no member stops the comprehension. *)
Lemma min_class_nodes_unknown (node : SubnetNodeInfo)
    (subnet_nodes : list SubnetNodeInfo) (subnet_epoch : Z)
    (min_class : SubnetNodeClass) :
  subnet_node_class_to_enum (node_class (classification node)) = Raises KeyError ->
  min_class_nodes (node :: subnet_nodes) subnet_epoch min_class = Raises KeyError.
Proof. intros Hc. cbn [min_class_nodes]. rewrite Hc. reflexivity. Qed.

(** C7. When the node's answer decodes to nodes whose classes are among
    Registered, Idle, Included and Validator,
    [get_min_class_subnet_nodes_formatted] with [min_class = Included] and
    [subnet_epoch = E] returns exactly the nodes, in order, whose class
    ordinal is at least 3, the ordinal of Included, and whose start epoch is
    at most [E]. *)
Theorem min_class_included_filter (subnet_id E : Z) (t t1 : trace)
    (payload : rpc_response) (vec : list Z) (subnet_nodes : list SubnetNodeInfo) :
  get_subnet_nodes_info subnet_id t = (Returns (Some payload), t1) ->
  dict_get "result" payload = Returns vec ->
  list_from_vec_u8 vec = Returns subnet_nodes ->
  Forall (fun node => In (node_class (classification node)) class_names)
    subnet_nodes ->
  value Included = 3 /\
  get_min_class_subnet_nodes_formatted subnet_id E Included t =
  (Returns (filter
              (fun node =>
                 (3 <=? class_ordinal (node_class (classification node)))
                 && (start_epoch (classification node) <=? E))
              subnet_nodes),
   t1).
Proof.
  intros Hinfo Hres Hdec Hcls. split; [reflexivity|].
  unfold get_min_class_subnet_nodes_formatted.
  apply try_except_Returns.
  rewrite (bind_Returns _ _ _ _ _ Hinfo).
  unfold bind, lift. cbn [subscript_result]. rewrite Hres, Hdec.
  rewrite (min_class_nodes_filter _ _ _ Hcls). reflexivity.
Qed.

(** C10. [get_min_class_subnet_nodes_formatted] always returns a list; when
    the fetch raises (as on exhausted retries), when the result is absent or
    has no [result] entry, when the bytes do not decode, it returns the
    empty list, where [get_subnet_nodes_info_formatted] returns [None]; a
    class name that is no member gives the empty list as well. *)
Theorem min_class_returns_empty_on_failure (subnet_id subnet_epoch : Z)
    (min_class : SubnetNodeClass) (t : trace) :
  (exists l t',
      get_min_class_subnet_nodes_formatted subnet_id subnet_epoch min_class t
      = (Returns l, t')) /\
  (forall e t1,
      get_subnet_nodes_info subnet_id t = (Raises e, t1) ->
      get_min_class_subnet_nodes_formatted subnet_id subnet_epoch min_class t
      = (Returns [], t1) /\
      get_subnet_nodes_info_formatted subnet_id t = (Returns None, t1)) /\
  (forall result e t1,
      get_subnet_nodes_info subnet_id t = (Returns result, t1) ->
      subscript_result result = Raises e ->
      get_min_class_subnet_nodes_formatted subnet_id subnet_epoch min_class t
      = (Returns [], t1) /\
      get_subnet_nodes_info_formatted subnet_id t = (Returns None, t1)) /\
  (forall result vec e t1,
      get_subnet_nodes_info subnet_id t = (Returns result, t1) ->
      subscript_result result = Returns vec ->
      list_from_vec_u8 vec = Raises e ->
      get_min_class_subnet_nodes_formatted subnet_id subnet_epoch min_class t
      = (Returns [], t1) /\
      get_subnet_nodes_info_formatted subnet_id t = (Returns None, t1)) /\
  (forall result vec subnet_nodes e t1,
      get_subnet_nodes_info subnet_id t = (Returns result, t1) ->
      subscript_result result = Returns vec ->
      list_from_vec_u8 vec = Returns subnet_nodes ->
      min_class_nodes subnet_nodes subnet_epoch min_class = Raises e ->
      get_min_class_subnet_nodes_formatted subnet_id subnet_epoch min_class t
      = (Returns [], t1)).
Proof.
  split; [|split; [|split; [|split]]].
  - unfold get_min_class_subnet_nodes_formatted, try_except, bind, lift, ret.
    destruct (get_subnet_nodes_info subnet_id t) as [[result|e0] t0];
      [|cbn [Exception]; eauto].
    destruct (subscript_result result) as [vec|e1]; [|cbn [Exception]; eauto].
    destruct (list_from_vec_u8 vec) as [nodes|e2]; [|cbn [Exception]; eauto].
    destruct (min_class_nodes nodes subnet_epoch min_class) as [l|e3];
      cbn [Exception]; eauto.
  - intros e t1 Hinfo.
    unfold get_min_class_subnet_nodes_formatted, get_subnet_nodes_info_formatted,
      try_except, bind, lift, ret.
    rewrite Hinfo. split; reflexivity.
  - intros result e t1 Hinfo Hsub.
    unfold get_min_class_subnet_nodes_formatted, get_subnet_nodes_info_formatted,
      try_except, bind, lift, ret.
    rewrite Hinfo, Hsub. split; reflexivity.
  - intros result vec e t1 Hinfo Hsub Hdec.
    unfold get_min_class_subnet_nodes_formatted, get_subnet_nodes_info_formatted,
      try_except, bind, lift, ret.
    rewrite Hinfo, Hsub, Hdec. split; reflexivity.
  - intros result vec nodes e t1 Hinfo Hsub Hdec Hcomp.
    unfold get_min_class_subnet_nodes_formatted, try_except, bind, lift, ret.
    rewrite Hinfo, Hsub, Hdec, Hcomp. reflexivity.
Qed.

(** *** [get_reward_result_event] *)

(** An attempt of [get_reward_result_event] never returns: it raises the
    [RetryError] of the epoch-length query, the [ValueError] of
    [int(str(None))], or the [TypeError] of the call
    [get_block_hash(block_number=...)]. *)
Lemma make_event_query_raises (target_subnet_id epoch : Z) (t : trace) :
  exists e t1, make_event_query target_subnet_id epoch t = (Raises e, t1).
Proof.
  unfold make_event_query, try_except. unfold bind at 1.
  destruct (get_epoch_length t) as [[epoch_length|e] t1] eqn:Hlen.
  - destruct epoch_length as [epoch_length|]; cbn; eauto.
  - destruct (retry4_raises_RetryError _ _ _ _ Hlen) as [e' ->]. cbn. eauto.
Qed.

Lemma make_event_query_not_block_lookup (target_subnet_id epoch : Z) :
  adds_only not_block_lookup (make_event_query target_subnet_id epoch).
Proof.
  unfold make_event_query.
  apply adds_only_try_except.
  - apply adds_only_bind; [exact get_epoch_length_not_block_lookup | intros v].
    apply adds_only_bind; [apply adds_only_lift | intros epoch_length].
    apply (adds_only_ext _ _ (raise TypeError));
      [intros t; reflexivity | apply adds_only_raise].
  - intros e. apply adds_only_bind; [|intros u; apply adds_only_ret].
    apply adds_only_perform. exact I.
Qed.

(** C8, what the code does. [get_reward_result_event] never looks a block
    up.  An attempt that has fetched the epoch length raises [TypeError] at
    [get_block_hash(block_number=...)], with nothing asked of the node; and
    every call makes four attempts and raises [RetryError], having asked
    neither for a block hash nor for an event log. *)
Theorem get_reward_result_event_never_returns (target_subnet_id epoch : Z)
    (t : trace) :
  (forall epoch_length t1,
      get_epoch_length t = (Returns (Some epoch_length), t1) ->
      make_event_query target_subnet_id epoch t = (Raises TypeError, t1)) /\
  (exists e es,
      retry_statistics (BLOCK_SECS + 1) Exception
        (make_event_query target_subnet_id epoch) 4 t
      = (Raises (RetryError e), 4%nat, t ++ es) /\
      get_reward_result_event target_subnet_id epoch t
      = (Raises (RetryError e), t ++ es) /\
      Forall not_block_lookup es).
Proof.
  split.
  - intros epoch_length t1 Hlen.
    unfold make_event_query, try_except.
    rewrite (bind_Returns _ _ _ _ _ Hlen). reflexivity.
  - destruct (retry_loop_never_returns (BLOCK_SECS + 1) Exception
                (make_event_query target_subnet_id epoch) 3 1 t
                (fun _ => eq_refl)
                (make_event_query_raises target_subnet_id epoch))
      as (e & t' & Hl).
    destruct (adds_only_retry_loop (BLOCK_SECS + 1) Exception
                (make_event_query target_subnet_id epoch) not_block_lookup
                3 1 t I (make_event_query_not_block_lookup target_subnet_id epoch))
      as (es & Ht & Hes).
    rewrite Hl in Ht. cbn [snd] in Ht. subst t'.
    exists e, es. split; [exact Hl|]. split; [|exact Hes].
    unfold get_reward_result_event, retry4.
    exact (retry_of_statistics _ _ _ 4%nat _ _ _ _ Hl).
Qed.

End HypertensorProperties.

(** * The properties at concrete inputs *)

(** C1 at block 175 with epochs of 100 blocks. *)
Lemma epoch_data_invariant_witness :
  0 < 100 /\
  exists d,
    @epoch_data config6 175 100 = Returns d /\
    EpochData.blocks_elapsed d + EpochData.blocks_remaining d = 100 /\
    0 <= EpochData.blocks_elapsed d < 100 /\
    (0 <= EpochData.percent_complete d)%Q /\
    (EpochData.percent_complete d < 1)%Q /\
    EpochData.percent_complete d =
    (inject_Z (EpochData.blocks_elapsed d) / inject_Z 100)%Q.
Proof.
  split; [lia | apply (@epoch_data_invariant config6 175 100); lia].
Defined.

(** C2 at the specification's example: block 175, epochs of 100, slot 50. *)
Lemma subnet_epoch_data_offset_witness :
  0 < 100 /\
  (175 < 50 ->
   exists z,
     @subnet_epoch_data config6 175 100 50 = Returns z /\
     @EpochData.zero config6 175 100 = Returns z /\
     EpochData.epoch z = 0 /\
     EpochData.blocks_remaining z = 100) /\
  (50 <= 175 ->
   exists d,
     @epoch_data config6 (175 - 50) 100 = Returns d /\
     @subnet_epoch_data config6 175 100 50 =
     Returns (EpochData.with_block 175 d)).
Proof.
  split; [lia | apply (@subnet_epoch_data_offset config6 175 100 50); lia].
Defined.

(** The specification's example, run: epoch 1, 25 blocks elapsed, 75
    remaining, a quarter complete. *)
Example subnet_epoch_data_example :
  @subnet_epoch_data config6 175 100 50 =
  Returns (EpochData.mk 175 1 100 600 (inject_Z 25 / inject_Z 100)%Q 25 75 150 450).
Proof. reflexivity. Qed.

(** C4 at [get_block_number] on a node whose first two requests fail with a
    transport error: the call returns the block number on the third
    attempt. *)
Lemma retry_four_attempts_witness :
  fails_then_returns 7 Exception
    (@get_block_number_make_query (flaky_node 2 ConnectionError demo_node))
    2 [] [ConnectionError; ConnectionError] (Some 175)
    [GetBlockHash None; Close; Sleep 7; GetBlockHash None; Close; Sleep 7;
     GetBlockHash None; GetBlockNumber "0x2a"; Close] /\
  @Hypertensor_get_block_number config6 (flaky_node 2 ConnectionError demo_node) []
  = (Returns (Some 175),
     [GetBlockHash None; Close; Sleep 7; GetBlockHash None; Close; Sleep 7;
      GetBlockHash None; GetBlockNumber "0x2a"; Close]).
Proof.
  assert (Hf : fails_then_returns 7 Exception
                 (@get_block_number_make_query
                    (flaky_node 2 ConnectionError demo_node))
                 2 [] [ConnectionError; ConnectionError] (Some 175)
                 [GetBlockHash None; Close; Sleep 7; GetBlockHash None; Close;
                  Sleep 7; GetBlockHash None; GetBlockNumber "0x2a"; Close]).
  { eapply ftr_fails; [reflexivity | reflexivity |].
    eapply ftr_fails; [reflexivity | reflexivity |].
    apply ftr_returns. reflexivity. }
  split; [exact Hf|].
  apply (proj1 (retry_four_attempts 7 Exception _ _ _ _ _ _ Hf)). lia.
Defined.

(** Five failures in a row: four attempts, then [RetryError] with the fourth
    failure. *)
Example get_block_number_exhausted :
  retry_statistics 7 Exception
    (@get_block_number_make_query (flaky_node 5 ConnectionError demo_node)) 4 []
  = (Raises (RetryError ConnectionError), 4%nat,
     [GetBlockHash None; Close; Sleep 7; GetBlockHash None; Close; Sleep 7;
      GetBlockHash None; Close; Sleep 7; GetBlockHash None; Close]).
Proof. reflexivity. Qed.

(** A request the node refuses with [SubstrateRequestException] is no failure
    of the decorated function: it prints and returns [None], after one
    attempt. *)
Example get_block_number_request_refused :
  retry_statistics 7 Exception
    (@get_block_number_make_query
       (flaky_node 1 SubstrateRequestException demo_node)) 4 []
  = (Returns None, 1%nat,
     [GetBlockHash None; Close; Print "Failed to get query request"]).
Proof. reflexivity. Qed.

(** [get_subnet_slot] on a node that stays down: four attempts, each followed
    by close, reconnect and reload, then [None]. *)
Example get_subnet_slot_node_down :
  @get_subnet_slot config6 (flaky_node 5 ConnectionError demo_node) 1 []
  = (Returns None,
     [ConnectWebsocket; Query "Network" "SubnetSlot" [1]; Close;
      Close; ConnectWebsocket; InitRuntime; Sleep 7;
      ConnectWebsocket; Query "Network" "SubnetSlot" [1]; Close;
      Close; ConnectWebsocket; InitRuntime; Sleep 7;
      ConnectWebsocket; Query "Network" "SubnetSlot" [1]; Close;
      Close; ConnectWebsocket; InitRuntime; Sleep 7;
      ConnectWebsocket; Query "Network" "SubnetSlot" [1]; Close;
      Close; ConnectWebsocket; InitRuntime]).
Proof. reflexivity. Qed.

(** C6 at the example node: block 175, epochs of 100 blocks, and a
    multiplier query answered with an object holding 2.  The run ends after
    the multiplier has been fetched. *)
Lemma get_overwatch_epoch_data_fails_witness :
  100 <> 0 /\
  @get_overwatch_epoch_data config6 demo_node []
  = (Raises TypeError,
     [GetBlockHash None; GetBlockNumber "0x2a"; Close;
      GetConstant "Network" "EpochLength"; Close;
      Query "Network" "OverwatchEpochLengthMultiplier" []; Close]) /\
  (forall v seconds_remaining_until_reveal,
      @overwatch_return config6 175 100 v seconds_remaining_until_reveal
      = Raises TypeError).
Proof.
  split; [lia|].
  apply (@get_overwatch_epoch_data_fails config6 demo_node []
           [GetBlockHash None; GetBlockNumber "0x2a"; Close]
           [GetBlockHash None; GetBlockNumber "0x2a"; Close;
            GetConstant "Network" "EpochLength"; Close]
           _ 175 100 (Some 2));
    (reflexivity || lia).
Defined.

(** [in_overwatch_commit_period] at the example node: the same
    [TypeError], at the same product. *)
Example in_overwatch_commit_period_at_example_node :
  @in_overwatch_commit_period config6 demo_node []
  = (Raises TypeError,
     [GetBlockHash None; GetBlockNumber "0x2a"; Close;
      GetConstant "Network" "EpochLength"; Close;
      Query "Network" "OverwatchEpochLengthMultiplier" []; Close]).
Proof. reflexivity. Qed.

(** C7 at the example node: of the nodes 7 (Included, from epoch 0),
    8 (Validator, from epoch 9) and 9 (Registered, from epoch 0), epoch 5
    keeps node 7. *)
Lemma min_class_included_filter_witness :
  value Included = 3 /\
  @get_min_class_subnet_nodes_formatted config6 demo_node demo_chain_data
    1 5 Included []
  = (Returns [(7, mk_classification "Included" 0)],
     [RpcRequest "network_getSubnetNodesInfo" [1]; Close]).
Proof.
  apply (@min_class_included_filter config6 demo_node demo_chain_data 1 5 []
           [RpcRequest "network_getSubnetNodesInfo" [1]; Close]
           demo_payload [7; 3; 0; 8; 4; 9; 9; 1; 0]
           [(7, mk_classification "Included" 0);
            (8, mk_classification "Validator" 9);
            (9, mk_classification "Registered" 0)]);
    try reflexivity.
  repeat apply Forall_cons; try apply Forall_nil;
    unfold class_names; cbn [classification demo_chain_data snd node_class In];
    auto 10.
Defined.

(** On truncated bytes the two formatted methods differ: an empty list and
    [None]. *)
Example formatted_on_malformed_bytes :
  let node := steady_node 175 100 2 (5 * 10 ^ 17) 50 [] [("result"%string, [7; 3])] in
  @get_min_class_subnet_nodes_formatted config6 node demo_chain_data 1 5 Included []
  = (Returns [], [RpcRequest "network_getSubnetNodesInfo" [1]; Close]) /\
  @get_subnet_nodes_info_formatted config6 node demo_chain_data 1 []
  = (Returns None, [RpcRequest "network_getSubnetNodesInfo" [1]; Close]).
Proof. split; reflexivity. Qed.

(** On a node that stays down both formatted methods end on tenacity's
    [RetryError]: an empty list and [None]. *)
Example formatted_on_node_down :
  fst (@get_min_class_subnet_nodes_formatted config6
         (flaky_node 5 ConnectionError demo_node) demo_chain_data 1 5 Included [])
  = Returns [] /\
  fst (@get_subnet_nodes_info_formatted config6
         (flaky_node 5 ConnectionError demo_node) demo_chain_data 1 [])
  = Returns None /\
  fst (@get_subnet_nodes_info config6 (flaky_node 5 ConnectionError demo_node) 1 [])
  = Raises (RetryError ConnectionError).
Proof. repeat split. Qed.

(** [get_reward_result_event] at the example node, whose block of epoch 3
    holds a [RewardResult] event of subnet 1: four attempts, each ending at
    the call of [get_block_hash], and [RetryError]. *)
Example get_reward_result_event_at_example_node :
  @get_reward_result_event config6 demo_node 1 3 []
  = (Raises (RetryError TypeError),
     [GetConstant "Network" "EpochLength"; Close; Sleep 7;
      GetConstant "Network" "EpochLength"; Close; Sleep 7;
      GetConstant "Network" "EpochLength"; Close; Sleep 7;
      GetConstant "Network" "EpochLength"; Close]).
Proof. reflexivity. Qed.

(** * Further properties *)

(** ** More of the epoch calculator *)

Section EpochFurther.
Context `{Config}.

(** X1. For [epoch_length > 0] the record of the epoch-data calculation
    splits the block number: [block == epoch * block_per_epoch +
    blocks_elapsed]; [blocks_remaining] lies between 1 and the epoch length,
    so it is never 0; and the seconds elapsed and remaining add up to the
    seconds of an epoch. *)
Theorem epoch_data_splits_block (current_block epoch_length : Z) :
  0 < epoch_length ->
  exists d,
    epoch_data current_block epoch_length = Returns d /\
    EpochData.block d
    = EpochData.epoch d * EpochData.block_per_epoch d + EpochData.blocks_elapsed d /\
    1 <= EpochData.blocks_remaining d <= epoch_length /\
    EpochData.seconds_elapsed d + EpochData.seconds_remaining d
    = EpochData.seconds_per_epoch d.
Proof.
  intros HL. eexists. split; [apply epoch_data_returns; lia|].
  cbn [EpochData.block EpochData.epoch EpochData.block_per_epoch
       EpochData.blocks_elapsed EpochData.blocks_remaining
       EpochData.seconds_elapsed EpochData.seconds_remaining
       EpochData.seconds_per_epoch].
  pose proof (Z.mod_pos_bound current_block epoch_length HL) as Hm.
  pose proof (Z.div_mod current_block epoch_length ltac:(lia)) as Hd.
  repeat split; [lia | lia | lia | ring].
Qed.

(** X2. For [epoch_length > 0], [k >= 0] and [0 <= r < epoch_length], at block
    [slot + k * epoch_length + r] the subnet calculation is in epoch [k] with
    [r] blocks elapsed and [epoch_length - r] remaining: subnet epochs start
    at the slot and are [epoch_length] blocks long. *)
Theorem subnet_epoch_data_at_offset (epoch_length slot k r : Z) :
  0 < epoch_length -> 0 <= k -> 0 <= r < epoch_length ->
  exists d,
    subnet_epoch_data (slot + k * epoch_length + r) epoch_length slot = Returns d /\
    EpochData.epoch d = k /\
    EpochData.blocks_elapsed d = r /\
    EpochData.blocks_remaining d = epoch_length - r.
Proof.
  intros HL Hk Hr.
  unfold subnet_epoch_data, floordiv, pymod, truediv.
  assert (Hs : (slot + k * epoch_length + r <? slot) = false)
    by (apply Z.ltb_ge; nia).
  assert (HL' : (epoch_length =? 0) = false) by (apply Z.eqb_neq; lia).
  rewrite Hs, HL'.
  replace (slot + k * epoch_length + r - slot) with (r + k * epoch_length) by ring.
  rewrite Z.div_add by lia. rewrite Z.mod_add by lia.
  rewrite Z.div_small, Z.mod_small by lia.
  eexists. split; [reflexivity|]. repeat split.
Qed.

(** X3. With an epoch length of 0 the plain calculation raises
    [ZeroDivisionError]; the subnet calculation divides only from the slot
    on, so before the slot it still returns the zero state, all of whose
    lengths are 0. *)
Theorem zero_epoch_length (current_block slot : Z) :
  epoch_data current_block 0 = Raises ZeroDivisionError /\
  subnet_epoch_data current_block 0 slot =
  (if current_block <? slot
   then Returns (EpochData.mk current_block 0 0 0 0%Q 0 0 0 0)
   else Raises ZeroDivisionError).
Proof.
  split; [reflexivity|].
  unfold subnet_epoch_data. destruct (current_block <? slot); reflexivity.
Qed.

(** X18. For [epoch_length > 0] the epoch of the subnet calculation never
    goes back as the chain advances: it is 0 before the slot, non-negative
    from the slot on, and a later block is in the same or a later epoch. *)
Theorem subnet_epoch_never_goes_back (epoch_length slot block later : Z) :
  0 < epoch_length -> block <= later ->
  exists d d',
    subnet_epoch_data block epoch_length slot = Returns d /\
    subnet_epoch_data later epoch_length slot = Returns d' /\
    0 <= EpochData.epoch d <= EpochData.epoch d'.
Proof.
  intros HL Hle.
  assert (HL' : (epoch_length =? 0) = false) by (apply Z.eqb_neq; lia).
  unfold subnet_epoch_data, floordiv, pymod, truediv. rewrite HL'.
  destruct (Z.ltb_spec block slot) as [Hb|Hb];
    destruct (Z.ltb_spec later slot) as [Hl|Hl];
    eexists; eexists; (split; [reflexivity|]); (split; [reflexivity|]);
    cbn [EpochData.epoch].
  - lia.
  - split; [lia|]. apply Z.div_pos; lia.
  - lia.
  - split; [apply Z.div_pos; lia|]. apply Z.div_le_mono; lia.
Qed.

End EpochFurther.

(** ** More of the retry decorator *)

Section RetryFurther.
Context {A : Type}.
Variable wait_fixed : Z.
Variable fn : M A.

Lemma retry_loop_default (further n : nat) (t : trace) :
  match retry_loop wait_fixed Exception fn n further t with
  | (r, k, _) =>
      (n <= k <= n + further)%nat /\
      match r with
      | Returns _ => True
      | Raises e => k = (n + further)%nat /\ exists e', e = RetryError e'
      end
  end.
Proof.
  revert n t. induction further as [|further IH]; intros n t; cbn [retry_loop].
  - destruct (fn t) as [[v|e] t1]; cbn [Exception].
    + split; [lia | exact I].
    + split; [lia|]. split; [lia | eauto].
  - destruct (fn t) as [[v|e] t1]; cbn [Exception].
    + split; [lia | exact I].
    + specialize (IH (S n) (t1 ++ [Sleep wait_fixed])).
      destruct (retry_loop wait_fixed Exception fn (S n) further
                  (t1 ++ [Sleep wait_fixed])) as [[r k] t2].
      destruct IH as [Hk Hr]. split; [lia|].
      destruct r as [v|e']; [exact I|].
      destruct Hr as [Hk' He]. split; [lia | exact He].
Qed.

(** X6. Under the default decoration (every exception retried, four
    attempts) a call makes between 1 and 4 attempts, and when it raises it
    has made all 4 and what it raises is a [RetryError]: no exception of the
    decorated function reaches the caller as it is. *)
Theorem default_retry_raises_RetryError (t : trace) :
  match retry_statistics wait_fixed Exception fn 4 t with
  | (r, k, _) =>
      (1 <= k <= 4)%nat /\
      match r with
      | Returns _ => True
      | Raises e => k = 4%nat /\ exists e', e = RetryError e'
      end
  end.
Proof.
  unfold retry_statistics. cbn [Nat.sub].
  pose proof (retry_loop_default 3 1 t) as Hl.
  destruct (retry_loop wait_fixed Exception fn 1 3 t) as [[r k] t1].
  destruct Hl as [Hk Hr]. split; [lia|].
  destruct r as [v|e]; [exact I|].
  destruct Hr as [Hk' He]. split; [lia | exact He].
Qed.

End RetryFurther.

(** ** More of the client *)

Section HypertensorFurtherProperties.
Context `{Config} `{SubstrateInterface} `{ChainData}.

(** X7. When the node refuses the block-hash request with
    [SubstrateRequestException], [get_block_number] does not retry: it prints,
    and returns [None] after a single attempt, the same value a caller would
    read as an absent block number. *)
Theorem get_block_number_refused (t : trace) :
  get_block_hash t None = Raises SubstrateRequestException ->
  close (t ++ [GetBlockHash None]) = Returns tt ->
  retry_statistics (BLOCK_SECS + 1) Exception get_block_number_make_query 4 t
  = (Returns None, 1%nat,
     t ++ [GetBlockHash None; Close; Print "Failed to get query request"]) /\
  Hypertensor_get_block_number t
  = (Returns None,
     t ++ [GetBlockHash None; Close; Print "Failed to get query request"]).
Proof.
  intros Hh Hc.
  pose proof (get_block_number_make_query_refused t Hh Hc) as Hq.
  assert (Hs : retry_statistics (BLOCK_SECS + 1) Exception
                 get_block_number_make_query 4 t
               = (Returns None, 1%nat,
                  t ++ [GetBlockHash None; Close;
                        Print "Failed to get query request"])).
  { unfold retry_statistics. cbn [Nat.sub retry_loop]. rewrite Hq. reflexivity. }
  split; [exact Hs|].
  unfold Hypertensor_get_block_number, retry4.
  exact (retry_of_statistics _ _ _ _ _ _ _ _ Hs).
Qed.

(** X8. A block number that came back as [None] surfaces in the helpers as
    [ValueError], from [int(str(None))]: [get_subnet_epoch_data] raises it
    before fetching the epoch length, [get_epoch_data] after having fetched
    it. *)
Theorem helpers_on_absent_block_number (slot : Z) (t t1 : trace) :
  Hypertensor_get_block_number t = (Returns None, t1) ->
  get_subnet_epoch_data slot t = (Raises ValueError, t1) /\
  (forall epoch_length t2,
      get_epoch_length t1 = (Returns epoch_length, t2) ->
      get_epoch_data t = (Raises ValueError, t2)).
Proof.
  intros Hb. split.
  - unfold get_subnet_epoch_data.
    rewrite (bind_Returns _ _ _ _ _ Hb). reflexivity.
  - intros L t2 Hl. unfold get_epoch_data.
    rewrite (bind_Returns _ _ _ _ _ Hb), (bind_Returns _ _ _ _ _ Hl).
    reflexivity.
Qed.

(** X9. In [get_subnet_slot] an attempt that ends in an exception outside the
    five retried classes is the only attempt: the decorator raises the
    exception as it is, and the method returns [None]. *)
Theorem get_subnet_slot_not_retried (subnet_id : Z) (t t1 : trace) (e : exn) :
  slot_make_query subnet_id t = (Raises e, t1) ->
  slot_retryable e = false ->
  retry_statistics (BLOCK_SECS + 1) slot_retryable (slot_make_query subnet_id) 4 t
  = (Raises e, 1%nat, t1) /\
  get_subnet_slot subnet_id t = (Returns None, t1).
Proof.
  intros Hq He.
  assert (Hs : retry_statistics (BLOCK_SECS + 1) slot_retryable
                 (slot_make_query subnet_id) 4 t = (Raises e, 1%nat, t1)).
  { unfold retry_statistics. cbn [Nat.sub retry_loop]. rewrite Hq, He. reflexivity. }
  split; [exact Hs|].
  apply (get_subnet_slot_absent _ _ _ e).
  unfold slot_retry. exact (retry_of_statistics _ _ _ _ _ _ _ _ Hs).
Qed.

(** X10. On a connected socket a [get_subnet_slot] whose query succeeds
    returns the slot after the query, the print and the close of the [with]
    block: it neither reconnects nor reloads the runtime, and does not
    wait. *)
Theorem get_subnet_slot_connected (subnet_id slot : Z) (t : trace) :
  websocket_connected t = true ->
  query t "Network" "SubnetSlot" [subnet_id] = Returns slot ->
  close (t ++ [Query "Network" "SubnetSlot" [subnet_id]; Print "result"])
  = Returns tt ->
  get_subnet_slot subnet_id t
  = (Returns (Some slot),
     t ++ [Query "Network" "SubnetSlot" [subnet_id]; Print "result"; Close]).
Proof.
  intros Hw Hq Hc.
  assert (Hm : slot_make_query subnet_id t
               = (Returns slot,
                  t ++ [Query "Network" "SubnetSlot" [subnet_id];
                        Print "result"; Close])).
  { unfold slot_make_query. apply try_except_Returns.
    unfold slot_try, bind at 1. rewrite Hw. cbn [ret].
    unfold with_interface, bind, perform, print, ret.
    rewrite Hq. unfold perform. cbv beta iota.
    rewrite app_two, Hc, <- app_assoc. reflexivity. }
  unfold get_subnet_slot. apply try_except_Returns.
  unfold slot_retry.
  rewrite (bind_Returns _ _ _ _ _ (retry_Returns _ _ _ 4%nat _ _ _ Hm)).
  reflexivity.
Qed.

Lemma sleeps_app (t1 t2 : trace) : sleeps (t1 ++ t2) = (sleeps t1 + sleeps t2)%nat.
Proof.
  induction t1 as [|a t1 IH]; [reflexivity|].
  destruct a; cbn [app sleeps]; rewrite IH; reflexivity.
Qed.

(** *** [get_epoch] *)

(** One run of the decorated function of [get_epoch] on a node that answers
    its three requests. *)
Lemma get_epoch_make_query_answered (t : trace) (block_hash : string)
    (current_block : Z) (epoch_length : option Z) :
  get_block_hash t None = Returns block_hash ->
  get_block_number (t ++ [GetBlockHash None]) block_hash = Returns current_block ->
  get_constant (t ++ [GetBlockHash None; GetBlockNumber block_hash])
    "Network" "EpochLength" = Returns epoch_length ->
  close (t ++ [GetBlockHash None; GetBlockNumber block_hash;
               GetConstant "Network" "EpochLength"]) = Returns tt ->
  get_epoch_make_query t
  = (let? epoch_length := int_str epoch_length in
     let? epoch := floordiv current_block epoch_length in
     Returns (Some epoch),
     t ++ [GetBlockHash None; GetBlockNumber block_hash;
           GetConstant "Network" "EpochLength"; Close]).
Proof.
  intros Hh Hn Hc Hx.
  unfold get_epoch_make_query, try_except, with_interface, bind, perform, lift, ret.
  rewrite Hh, Hn, app_two, Hc.
  replace ((t ++ [GetBlockHash None; GetBlockNumber block_hash]) ++
           [GetConstant "Network" "EpochLength"])
    with (t ++ [GetBlockHash None; GetBlockNumber block_hash;
                GetConstant "Network" "EpochLength"])
    by (rewrite <- app_assoc; reflexivity).
  destruct epoch_length as [L|]; cbn [int_str obind].
  - unfold floordiv. destruct (L =? 0); cbn [obind];
      rewrite Hx, <- app_assoc; reflexivity.
  - rewrite Hx, <- app_assoc. reflexivity.
Qed.

(** X11. [get_epoch] divides inside the decorated function, so on a node that
    keeps reporting an epoch length of 0 the [ZeroDivisionError] is retried
    like a transport failure: four attempts with their waits, then
    [RetryError] holding it ([get_epoch_data] raises the bare
    [ZeroDivisionError]). *)
Theorem get_epoch_zero_length_retried (block_hash : string) (current_block : Z)
    (t : trace) :
  (forall t, get_block_hash t None = Returns block_hash) ->
  (forall t, get_block_number t block_hash = Returns current_block) ->
  (forall t, get_constant t "Network" "EpochLength" = Returns (Some 0)) ->
  (forall t, close t = Returns tt) ->
  exists t',
    retry_statistics (BLOCK_SECS + 1) Exception get_epoch_make_query 4 t
    = (Raises (RetryError ZeroDivisionError), 4%nat, t') /\
    get_epoch t = (Raises (RetryError ZeroDivisionError), t') /\
    sleeps t' = (sleeps t + 3)%nat.
Proof.
  intros Hh Hn Hc Hx.
  assert (Hstep : forall t0,
             get_epoch_make_query t0
             = (Raises ZeroDivisionError,
                t0 ++ [GetBlockHash None; GetBlockNumber block_hash;
                       GetConstant "Network" "EpochLength"; Close])).
  { intros t0.
    rewrite (get_epoch_make_query_answered t0 block_hash current_block (Some 0)
               (Hh _) (Hn _) (Hc _) (Hx _)).
    reflexivity. }
  set (w := [GetBlockHash None; GetBlockNumber block_hash;
             GetConstant "Network" "EpochLength"; Close]) in *.
  set (s := Sleep (BLOCK_SECS + 1)).
  pose proof (af_last (BLOCK_SECS + 1) Exception get_epoch_make_query
                ((((((t ++ w) ++ [s]) ++ w) ++ [s]) ++ w) ++ [s])
                ZeroDivisionError _ (Hstep _) eq_refl) as H4.
  pose proof (af_more (BLOCK_SECS + 1) Exception get_epoch_make_query
                ((((t ++ w) ++ [s]) ++ w) ++ [s])
                ZeroDivisionError _ _ _ _ (Hstep _) eq_refl H4) as H3.
  pose proof (af_more (BLOCK_SECS + 1) Exception get_epoch_make_query
                ((t ++ w) ++ [s])
                ZeroDivisionError _ _ _ _ (Hstep _) eq_refl H3) as H2.
  pose proof (af_more (BLOCK_SECS + 1) Exception get_epoch_make_query
                t ZeroDivisionError _ _ _ _ (Hstep _) eq_refl H2) as Hf.
  pose proof (retry_loop_gives_up _ _ _ _ _ _ Hf 1%nat 3%nat eq_refl) as Hl.
  cbn [Nat.add last] in Hl.
  eexists. split; [exact Hl|]. split.
  - unfold get_epoch, retry4. exact (retry_of_statistics _ _ _ 4%nat _ _ _ _ Hl).
  - rewrite !sleeps_app. subst w s. cbn [sleeps]. lia.
Qed.

(** X12. When the node answers block [current_block] and a non-zero epoch
    length, [get_epoch] returns [current_block // epoch_length], the [epoch]
    field of the record the epoch-data calculation returns for the same two
    integers. *)
Theorem get_epoch_agrees_with_epoch_data (t : trace) (block_hash : string)
    (current_block epoch_length : Z) :
  get_block_hash t None = Returns block_hash ->
  get_block_number (t ++ [GetBlockHash None]) block_hash = Returns current_block ->
  get_constant (t ++ [GetBlockHash None; GetBlockNumber block_hash])
    "Network" "EpochLength" = Returns (Some epoch_length) ->
  close (t ++ [GetBlockHash None; GetBlockNumber block_hash;
               GetConstant "Network" "EpochLength"]) = Returns tt ->
  epoch_length <> 0 ->
  exists d,
    epoch_data current_block epoch_length = Returns d /\
    get_epoch t
    = (Returns (Some (EpochData.epoch d)),
       t ++ [GetBlockHash None; GetBlockNumber block_hash;
             GetConstant "Network" "EpochLength"; Close]).
Proof.
  intros Hh Hn Hc Hx HL.
  eexists. split; [apply epoch_data_returns; exact HL|].
  cbn [EpochData.epoch].
  unfold get_epoch, retry4. apply retry_Returns.
  rewrite (get_epoch_make_query_answered t block_hash current_block
             (Some epoch_length) Hh Hn Hc Hx).
  cbn [int_str obind]. unfold floordiv.
  apply Z.eqb_neq in HL. rewrite HL. reflexivity.
Qed.

(** *** The event scan *)

(** X13. What the scan of [get_reward_result_event] can yield, for every event
    log: a pair [(s, a)] only when [s] is the target subnet and the log holds
    a [Network]/[RewardResult] event with attributes [s, a] before which no
    event is of the target subnet; [None] only when no event is of the target
    subnet; and the one exception is [ValueError], only when some
    [RewardResult] event does not have exactly two attributes. *)
Theorem scan_events_outcome (target_subnet_id : Z) (events : list chain_event) :
  match scan_events target_subnet_id events with
  | Returns (Some (s, a)) =>
      s = target_subnet_id /\
      exists before after,
        events = before ++ mk_event "Network" "RewardResult" [s; a] :: after /\
        Forall (fun event => is_reward_result_of target_subnet_id event = false)
          before
  | Returns None =>
      Forall (fun event => is_reward_result_of target_subnet_id event = false)
        events
  | Raises e =>
      e = ValueError /\
      Exists (fun event =>
                is_reward_result event = true /\
                List.length (attributes event) <> 2%nat) events
  end.
Proof.
  induction events as [|event events IH]; [constructor|].
  cbn [scan_events].
  destruct (String.eqb (module_id event) "Network"
            && String.eqb (event_id event) "RewardResult") eqn:Hr.
  - assert (Hrr : is_reward_result event = true) by exact Hr.
    destruct (attributes event) as [|s [|a [|c l]]] eqn:Ha.
    + split; [reflexivity|]. apply Exists_cons_hd. rewrite Ha. split; [exact Hrr | discriminate].
    + split; [reflexivity|]. apply Exists_cons_hd. rewrite Ha. split; [exact Hrr | discriminate].
    + destruct (Z.eqb_spec s target_subnet_id) as [Hs|Hs].
      * split; [exact Hs|]. exists [], events. split; [|constructor].
        apply andb_prop in Hr. destruct Hr as [Hm Hi].
        apply String.eqb_eq in Hm. apply String.eqb_eq in Hi.
        destruct event as [m i attrs]. cbn in *. subst. reflexivity.
      * assert (Hno : is_reward_result_of target_subnet_id event = false).
        { unfold is_reward_result_of. rewrite Hrr, Ha. cbn [andb].
          apply Z.eqb_neq. exact Hs. }
        destruct (scan_events target_subnet_id events) as [[[s' a']|]|e].
        -- destruct IH as [Hs' (before & after & He & Hb)].
           split; [exact Hs'|]. exists (event :: before), after.
           split; [rewrite He; reflexivity | constructor; assumption].
        -- constructor; assumption.
        -- destruct IH as [He Hex]. split; [exact He | apply Exists_cons_tl; exact Hex].
    + split; [reflexivity|]. apply Exists_cons_hd. rewrite Ha.
      split; [exact Hrr | discriminate].
  - assert (Hno : is_reward_result_of target_subnet_id event = false).
    { unfold is_reward_result_of, is_reward_result. rewrite Hr. reflexivity. }
    destruct (scan_events target_subnet_id events) as [[[s' a']|]|e].
    + destruct IH as [Hs' (before & after & He & Hb)].
      split; [exact Hs'|]. exists (event :: before), after.
      split; [rewrite He; reflexivity | constructor; assumption].
    + constructor; assumption.
    + destruct IH as [He Hex]. split; [exact He | apply Exists_cons_tl; exact Hex].
Qed.

(** *** The minimum-class filter *)

Lemma enum_of_unknown_name (name : string) :
  ~ In name class_names -> subnet_node_class_to_enum name = Raises KeyError.
Proof.
  unfold class_names, subnet_node_class_to_enum. cbn [In]. intros Hn.
  destruct (String.eqb_spec name "Registered") as [->|_]; [tauto|].
  destruct (String.eqb_spec name "Idle") as [->|_]; [tauto|].
  destruct (String.eqb_spec name "Included") as [->|_]; [tauto|].
  destruct (String.eqb_spec name "Validator") as [->|_]; [tauto|].
  reflexivity.
Qed.

Lemma enum_outcome (name : string) :
  match subnet_node_class_to_enum name with
  | Returns c => name = member_name c
  | Raises e => e = KeyError /\ ~ In name class_names
  end.
Proof.
  unfold subnet_node_class_to_enum, class_names. cbn [In].
  destruct (String.eqb_spec name "Registered") as [->|H1']; [reflexivity|].
  destruct (String.eqb_spec name "Idle") as [->|H2']; [reflexivity|].
  destruct (String.eqb_spec name "Included") as [->|H3']; [reflexivity|].
  destruct (String.eqb_spec name "Validator") as [->|H4']; [reflexivity|].
  split; [reflexivity|]. intros [Hx|[Hx|[Hx|[Hx|[]]]]]; congruence.
Qed.

Lemma min_class_nodes_unknown_anywhere (subnet_nodes : list SubnetNodeInfo)
    (subnet_epoch : Z) (min_class : SubnetNodeClass) :
  Exists (fun node => ~ In (node_class (classification node)) class_names)
    subnet_nodes ->
  min_class_nodes subnet_nodes subnet_epoch min_class = Raises KeyError.
Proof.
  induction subnet_nodes as [|node nodes IH]; intros Hex.
  - inversion Hex.
  - cbn [min_class_nodes].
    pose proof (enum_outcome (node_class (classification node))) as Ho.
    destruct (subnet_node_class_to_enum (node_class (classification node)))
      as [c|e].
    + cbn [obind]. rewrite IH; [reflexivity|].
      inversion Hex as [? ? Hh|? ? Ht]; subst; [|exact Ht].
      exfalso. apply Hh. rewrite Ho. unfold class_names.
      destruct c; cbn; auto 10.
    + destruct Ho as [-> _]. reflexivity.
Qed.

Lemma filter_filter_implied {X} (p q : X -> bool) (l : list X) :
  (forall x, p x = true -> q x = true) ->
  filter p (filter q l) = filter p l.
Proof.
  intros Hpq. induction l as [|x l IH]; [reflexivity|].
  cbn [filter]. destruct (q x) eqn:Hq.
  - cbn [filter]. rewrite IH. reflexivity.
  - rewrite IH. destruct (p x) eqn:Hp; [|reflexivity].
    rewrite (Hpq x Hp) in Hq. discriminate.
Qed.

(** X14. On nodes whose class names are members, lowering the minimum class
    or moving to a later epoch never loses a node: the list for
    [(min_class, E)] is the list for a lower class and a later epoch, filtered
    again, so every node of the first is a node of the second. *)
Theorem min_class_nodes_monotone (subnet_nodes : list SubnetNodeInfo)
    (E E' : Z) (min_class min_class' : SubnetNodeClass) :
  Forall (fun node => In (node_class (classification node)) class_names)
    subnet_nodes ->
  value min_class' <= value min_class ->
  E <= E' ->
  exists l l',
    min_class_nodes subnet_nodes E min_class = Returns l /\
    min_class_nodes subnet_nodes E' min_class' = Returns l' /\
    l = filter (fun node =>
                  (value min_class <=? class_ordinal (node_class (classification node)))
                  && (start_epoch (classification node) <=? E)) l' /\
    incl l l'.
Proof.
  intros Hcls Hc HE.
  rewrite !(min_class_nodes_filter _ _ _ Hcls).
  eexists. eexists. split; [reflexivity|]. split; [reflexivity|].
  assert (Himp : forall node : SubnetNodeInfo,
             (value min_class <=? class_ordinal (node_class (classification node)))
             && (start_epoch (classification node) <=? E) = true ->
             (value min_class' <=? class_ordinal (node_class (classification node)))
             && (start_epoch (classification node) <=? E') = true).
  { intros node Hp. apply andb_prop in Hp. destruct Hp as [Hp1 Hp2].
    apply Z.leb_le in Hp1. apply Z.leb_le in Hp2.
    apply andb_true_intro. split; apply Z.leb_le; lia. }
  split.
  - symmetry. apply filter_filter_implied. exact Himp.
  - intros node Hin. apply filter_In in Hin. destruct Hin as [Hin Hp].
    apply filter_In. split; [exact Hin | exact (Himp node Hp)].
Qed.

(** X15. One decoded node whose class name is no member of
    [SubnetNodeClass] empties the whole answer of
    [get_min_class_subnet_nodes_formatted]: the [KeyError] of the lookup ends
    the comprehension, and the method returns the empty list whatever the
    other nodes are. *)
Theorem min_class_unknown_class_empties (subnet_id subnet_epoch : Z)
    (min_class : SubnetNodeClass) (t t1 : trace) (payload : rpc_response)
    (vec : list Z) (subnet_nodes : list SubnetNodeInfo) :
  get_subnet_nodes_info subnet_id t = (Returns (Some payload), t1) ->
  dict_get "result" payload = Returns vec ->
  list_from_vec_u8 vec = Returns subnet_nodes ->
  Exists (fun node => ~ In (node_class (classification node)) class_names)
    subnet_nodes ->
  get_min_class_subnet_nodes_formatted subnet_id subnet_epoch min_class t
  = (Returns [], t1).
Proof.
  intros Hinfo Hres Hdec Hex.
  unfold get_min_class_subnet_nodes_formatted, try_except, bind, lift, ret.
  rewrite Hinfo. cbn [subscript_result]. rewrite Hres, Hdec.
  rewrite (min_class_nodes_unknown_anywhere _ _ _ Hex). reflexivity.
Qed.

End HypertensorFurtherProperties.

(** ** The dashboard handler *)

Section DashboardProperties.
Context `{Config} `{SubstrateInterface} `{NodeFields}.

Lemma or_None_not_empty (v : option string) : or_None v <> ""%string.
Proof.
  unfold or_None. destruct v as [s|]; [|discriminate].
  destruct (String.eqb_spec s "") as [_|Hs]; [discriminate | exact Hs].
Qed.

(** X17. One round of the [subnet_node_infos] handler. When the formatted
    query came back as [None], as it does on every failure of the fetch or of
    the decoding, the round raises [TypeError] from iterating [None] and has
    no list to send. When it came back with nodes, the round yields one row
    per node in the same order, no row has an empty [name] or [x], and
    [average_attestation] is the text None exactly where the stored value is
    0, never the number 0. *)
Theorem subnet_node_infos_round (subnet_id : Z) (t : trace) :
  (forall t1,
      get_subnet_nodes_info_formatted subnet_id t = (Returns None, t1) ->
      get_subnet_node_infos_round subnet_id t
      = (Raises TypeError, t1 ++ [Print "get_subnet_node_infos subnet_nodes"])) /\
  (forall e t1,
      get_subnet_nodes_info subnet_id t = (Raises e, t1) ->
      get_subnet_node_infos_round subnet_id t
      = (Raises TypeError, t1 ++ [Print "get_subnet_node_infos subnet_nodes"])) /\
  (forall nodes t1,
      get_subnet_nodes_info_formatted subnet_id t = (Returns (Some nodes), t1) ->
      exists rows,
        get_subnet_node_infos_round subnet_id t
        = (Returns rows, t1 ++ [Print "get_subnet_node_infos subnet_nodes"]) /\
        map row_peer_id rows = map peer_id nodes /\
        Forall2 (fun node row =>
                   row_name row <> ""%string /\
                   row_x row <> ""%string /\
                   match row_average_attestation row with
                   | Text s =>
                       s = "None"%string /\ reputation_average_attestation node = 0
                   | Number q =>
                       ~ (q == 0)%Q /\ reputation_average_attestation node <> 0
                   end) nodes rows).
Proof.
  assert (Hnone : forall t1,
             get_subnet_nodes_info_formatted subnet_id t = (Returns None, t1) ->
             get_subnet_node_infos_round subnet_id t
             = (Raises TypeError,
                t1 ++ [Print "get_subnet_node_infos subnet_nodes"])).
  { intros t1 Hf. unfold get_subnet_node_infos_round.
    rewrite (bind_Returns _ _ _ _ _ Hf). reflexivity. }
  split; [exact Hnone|]. split.
  - intros e t1 Hinfo. apply Hnone.
    unfold get_subnet_nodes_info_formatted, try_except, bind.
    rewrite Hinfo. reflexivity.
  - intros nodes t1 Hf. exists (map subnet_node_row nodes). split; [|split].
    + unfold get_subnet_node_infos_round.
      rewrite (bind_Returns _ _ _ _ _ Hf). reflexivity.
    + rewrite map_map. reflexivity.
    + clear. induction nodes as [|node nodes IH]; [constructor|].
      cbn [map]. constructor; [|exact IH].
      unfold subnet_node_row.
      cbn [row_name row_x row_average_attestation].
      split; [apply or_None_not_empty|]. split; [apply or_None_not_empty|].
      assert (H18 : (0 < f1e18)%Q) by (unfold f1e18, Qlt; simpl; lia).
      destruct (Qeq_bool (inject_Z (reputation_average_attestation node) / f1e18) 0)
        eqn:Hq.
      * split; [reflexivity|]. apply Qeq_bool_eq in Hq.
        assert (Hz : (inject_Z (reputation_average_attestation node) == 0)%Q).
        { rewrite <- (Qmult_div_r (inject_Z (reputation_average_attestation node))
                        f1e18) by (intros Hz; rewrite Hz in H18; discriminate).
          rewrite Hq. ring. }
        unfold Qeq in Hz. simpl in Hz. lia.
      * apply Qeq_bool_neq in Hq. split; [exact Hq|].
        intros Hz. apply Hq. rewrite Hz. reflexivity.
Qed.

End DashboardProperties.

(** * The further properties at concrete inputs *)

(** X1 at block 175 with epochs of 100 blocks. *)
Lemma epoch_data_splits_block_witness :
  0 < 100 /\
  exists d,
    @epoch_data config6 175 100 = Returns d /\
    EpochData.block d
    = EpochData.epoch d * EpochData.block_per_epoch d + EpochData.blocks_elapsed d /\
    1 <= EpochData.blocks_remaining d <= 100 /\
    EpochData.seconds_elapsed d + EpochData.seconds_remaining d
    = EpochData.seconds_per_epoch d.
Proof.
  split; [lia | apply (@epoch_data_splits_block config6 175 100); lia].
Defined.

(** X2 at slot 50, epochs of 100 blocks, one whole epoch and 25 blocks
    later: block 175. *)
Lemma subnet_epoch_data_at_offset_witness :
  (0 < 100 /\ 0 <= 1 /\ 0 <= 25 < 100) /\
  exists d,
    @subnet_epoch_data config6 (50 + 1 * 100 + 25) 100 50 = Returns d /\
    EpochData.epoch d = 1 /\
    EpochData.blocks_elapsed d = 25 /\
    EpochData.blocks_remaining d = 100 - 25.
Proof.
  split; [lia | apply (@subnet_epoch_data_at_offset config6 100 50 1 25); lia].
Defined.

(** X7 on a node that refuses the first request. *)
Lemma get_block_number_refused_witness :
  retry_statistics 7 Exception
    (@get_block_number_make_query
       (flaky_node 1 SubstrateRequestException demo_node)) 4 []
  = (Returns None, 1%nat,
     [GetBlockHash None; Close; Print "Failed to get query request"]) /\
  @Hypertensor_get_block_number config6
    (flaky_node 1 SubstrateRequestException demo_node) []
  = (Returns None,
     [GetBlockHash None; Close; Print "Failed to get query request"]).
Proof.
  apply (@get_block_number_refused config6
           (flaky_node 1 SubstrateRequestException demo_node) []);
    reflexivity.
Defined.

(** X8 on the same node. *)
Lemma helpers_on_absent_block_number_witness :
  @get_subnet_epoch_data config6
    (flaky_node 1 SubstrateRequestException demo_node) 50 []
  = (Raises ValueError,
     [GetBlockHash None; Close; Print "Failed to get query request"]) /\
  (forall epoch_length t2,
      @get_epoch_length config6 (flaky_node 1 SubstrateRequestException demo_node)
        [GetBlockHash None; Close; Print "Failed to get query request"]
      = (Returns epoch_length, t2) ->
      @get_epoch_data config6 (flaky_node 1 SubstrateRequestException demo_node) []
      = (Raises ValueError, t2)).
Proof.
  apply (@helpers_on_absent_block_number config6
           (flaky_node 1 SubstrateRequestException demo_node) 50 []).
  reflexivity.
Defined.

(** X9 on a node whose first query raises [ValueError]. *)
Lemma get_subnet_slot_not_retried_witness :
  retry_statistics 7 slot_retryable
    (@slot_make_query (flaky_node 1 ValueError demo_node) 1) 4 []
  = (Raises ValueError, 1%nat,
     [ConnectWebsocket; Query "Network" "SubnetSlot" [1]; Close; Close;
      ConnectWebsocket; InitRuntime]) /\
  @get_subnet_slot config6 (flaky_node 1 ValueError demo_node) 1 []
  = (Returns None,
     [ConnectWebsocket; Query "Network" "SubnetSlot" [1]; Close; Close;
      ConnectWebsocket; InitRuntime]).
Proof.
  apply (@get_subnet_slot_not_retried config6 (flaky_node 1 ValueError demo_node)
           1 [] _ ValueError);
    reflexivity.
Defined.

(** X10 at the example node, whose subnet 1 has slot 50. *)
Lemma get_subnet_slot_connected_witness :
  @get_subnet_slot config6 demo_node 1 []
  = (Returns (Some 50),
     [Query "Network" "SubnetSlot" [1]; Print "result"; Close]).
Proof.
  apply (@get_subnet_slot_connected config6 demo_node 1 50 []); reflexivity.
Defined.

(** X11 on a node that reports block 175 and an epoch length of 0. *)
Lemma get_epoch_zero_length_retried_witness :
  exists t',
    retry_statistics 7 Exception
      (@get_epoch_make_query (steady_node 175 0 2 0 50 [] [])) 4 []
    = (Raises (RetryError ZeroDivisionError), 4%nat, t') /\
    @get_epoch config6 (steady_node 175 0 2 0 50 [] []) []
    = (Raises (RetryError ZeroDivisionError), t') /\
    sleeps t' = (sleeps [] + 3)%nat.
Proof.
  apply (@get_epoch_zero_length_retried config6 (steady_node 175 0 2 0 50 [] [])
           "0x2a" 175 []);
    intros; reflexivity.
Defined.

(** X12 at the example node: block 175, epochs of 100 blocks, epoch 1. *)
Lemma get_epoch_agrees_with_epoch_data_witness :
  100 <> 0 /\
  exists d,
    @epoch_data config6 175 100 = Returns d /\
    @get_epoch config6 demo_node []
    = (Returns (Some (EpochData.epoch d)),
       [GetBlockHash None; GetBlockNumber "0x2a";
        GetConstant "Network" "EpochLength"; Close]).
Proof.
  split; [lia|].
  apply (@get_epoch_agrees_with_epoch_data config6 demo_node [] "0x2a" 175 100);
    (reflexivity || lia).
Defined.

(** X14 on the three example nodes: Validator from epoch 9 on against
    Included from epoch 10 on. *)
Lemma min_class_nodes_monotone_witness :
  exists l l',
    @min_class_nodes demo_chain_data
      [(7, mk_classification "Included" 0); (8, mk_classification "Validator" 9);
       (9, mk_classification "Registered" 0)] 9 Validator = Returns l /\
    @min_class_nodes demo_chain_data
      [(7, mk_classification "Included" 0); (8, mk_classification "Validator" 9);
       (9, mk_classification "Registered" 0)] 10 Included = Returns l' /\
    l = filter (fun node : Z * Classification =>
                  (value Validator <=? class_ordinal (node_class (snd node)))
                  && (start_epoch (snd node) <=? 9)) l' /\
    incl l l'.
Proof.
  apply (@min_class_nodes_monotone demo_chain_data
           [(7, mk_classification "Included" 0);
            (8, mk_classification "Validator" 9);
            (9, mk_classification "Registered" 0)] 9 10 Validator Included).
  - repeat apply Forall_cons; try apply Forall_nil;
      unfold class_names; cbn [classification demo_chain_data snd node_class In];
      auto 10.
  - cbn. lia.
  - lia.
Defined.

(** X15 on an answer of two nodes, the second of an unknown class: the
    first, an Included node, is lost as well, even for the lowest class. *)
Lemma min_class_unknown_class_empties_witness :
  @get_min_class_subnet_nodes_formatted config6
    (steady_node 175 100 2 0 50 [] [("result"%string, [7; 3; 0; 8; 9; 0])])
    demo_chain_data 1 5 Registered []
  = (Returns [], [RpcRequest "network_getSubnetNodesInfo" [1]; Close]).
Proof.
  apply (@min_class_unknown_class_empties config6
           (steady_node 175 100 2 0 50 [] [("result"%string, [7; 3; 0; 8; 9; 0])])
           demo_chain_data 1 5 Registered []
           [RpcRequest "network_getSubnetNodesInfo" [1]; Close]
           [("result"%string, [7; 3; 0; 8; 9; 0])] [7; 3; 0; 8; 9; 0]
           [(7, mk_classification "Included" 0);
            (8, mk_classification "Unknown" 0)]);
    try reflexivity.
  apply Exists_cons_tl. apply Exists_cons_hd.
  unfold class_names. cbn [classification demo_chain_data snd node_class In].
  intros [Hx|[Hx|[Hx|[Hx|[]]]]]; discriminate.
Defined.

(** The handler's round at the example node: three rows, the first with the
    text None for an attestation of 0. *)
Example subnet_node_infos_round_example :
  exists rows,
    @get_subnet_node_infos_round config6 demo_node demo_chain_data
      demo_node_fields 1 []
    = (Returns rows,
       [RpcRequest "network_getSubnetNodesInfo" [1]; Close;
        Print "get_subnet_node_infos subnet_nodes"]) /\
    map row_peer_id rows = ["peer7"; "peer"; "peer"]%string /\
    map row_average_attestation rows
    = [Text "None"; Number (inject_Z (10 ^ 18) / f1e18)%Q;
       Number (inject_Z (10 ^ 18) / f1e18)%Q].
Proof. eexists. repeat split. Qed.

(** X18 across the slot: block 40, before slot 50, and block 175. *)
Lemma subnet_epoch_never_goes_back_witness :
  (0 < 100 /\ 40 <= 175) /\
  exists d d',
    @subnet_epoch_data config6 40 100 50 = Returns d /\
    @subnet_epoch_data config6 175 100 50 = Returns d' /\
    0 <= EpochData.epoch d <= EpochData.epoch d'.
Proof.
  split; [lia | apply (@subnet_epoch_never_goes_back config6 100 50 40 175); lia].
Defined.
